(** * Writely: the task / bid / payment handlers of the single-file React starter

    A shallow embedding of the event handlers of
    [writely_student_tutor_platform_react_single_file_starter.jsx] that read
    and write the mock database kept in [localStorage], and the properties of
    the task, bid, acceptance and payment workflow that they satisfy.

    - The database is the object [{ users, tasks, bids, payments }] of four
      arrays; arrays are lists, [push] appends at the end, [find] is
      [list_find] (first match, with its index, so that a mutation of the
      found object is an update at that index).
    - [localStorage] holds the text [JSON.stringify db] or nothing. The text
      is represented by the object it was made from, and [JSON.parse] of it
      gives that object with every amount that is not a finite number
      replaced by [null]: on the records stored here the round trip changes
      nothing else.
    - A handler is a computation in a small state and exception monad over
      the [World] (the storage and the alerts shown so far).
    - [Date.now ()] is an input: every reading a handler takes is a parameter
      of the handler, in the order in which the source evaluates them.
    - Of the React state, the [payments] list of [PaymentsPage] is modelled
      (as the argument and the result of [pay]); the logged-in [user] and the
      props of a component are parameters of its handlers; the form fields
      that a handler clears are left out. *)

From Stdlib Require Import ZArith String SpecFloat DecimalString.
From stdpp Require Import base tactics option list strings pretty.

Open Scope string_scope.
Open Scope list_scope.

(** ** Values *)

(** The value of an [amount] field: a JavaScript number (a binary64 float) or
    [null], which is what a number that is not finite becomes in JSON. *)
Inductive JsAmount :=
| JNull
| JNumber (f : spec_float).

Global Instance spec_float_eq_dec : EqDecision spec_float.
Proof. solve_decision. Defined.

Global Instance JsAmount_eq_dec : EqDecision JsAmount.
Proof. solve_decision. Defined.

(** The number of an integer, rounded to binary64 as JavaScript does. *)
Definition js_of_Z (z : Z) : spec_float := binary_normalize 53 1024 z 0 false.

(** [x < 0] on JavaScript numbers. *)
Definition js_negative (f : spec_float) : bool := SFltb f (S754_zero false).

(** [JSON.parse (JSON.stringify v)] on an amount: [NaN] and the infinities are
    written as [null], and [-0] as [0]. *)
Definition JSON_amount (v : JsAmount) : JsAmount :=
  match v with
  | JNumber (S754_finite s m e) => JNumber (S754_finite s m e)
  | JNumber (S754_zero _) => JNumber (S754_zero false)
  | JNumber (S754_infinity _) => JNull
  | JNumber S754_nan => JNull
  | JNull => JNull
  end.

(** What the handlers can throw: the [TypeError] of a property access on
    [undefined] or [null], and [new Error (message)]. *)
Inductive JsError :=
| TypeError
| Error (message : string).

(** ** Records *)

(** An entry of [db.users]. *)
Module User.
Record t := mk {
  id : string;
  name : string;
  email : string;
  password : string;
  role : string
}.
End User.

(** The [user] of the auth context: what [setUser] is given. *)
Module CurrentUser.
Record t := mk {
  id : string;
  name : string;
  email : string;
  role : string
}.
End CurrentUser.

Module Bid.
Record t := mk {
  id : string;
  taskId : string;
  tutorId : string;
  tutorName : string;
  amount : JsAmount;
  message : string;
  createdAt : Z
}.
End Bid.

Module Task.
Record t := mk {
  id : string;
  title : string;
  description : string;
  studentId : string;
  studentName : string;
  dueDate : string;
  budget : string;
  acceptedBid : option Bid.t
}.
End Task.

Module Payment.
Record t := mk {
  id : string;
  taskId : string;
  amount : JsAmount;
  studentPaid : bool;
  createdAt : Z;
  paidAt : option Z
}.
End Payment.

(** The form state of [PostTaskCard]. *)
Module TaskForm.
Record t := mk {
  title : string;
  description : string;
  dueDate : string;
  budget : string
}.
End TaskForm.

Module DB.
Record t := mk {
  users : list User.t;
  tasks : list Task.t;
  bids : list Bid.t;
  payments : list Payment.t
}.
End DB.

Global Instance Bid_eq_dec : EqDecision Bid.t.
Proof. solve_decision. Defined.

Global Instance Task_eq_dec : EqDecision Task.t.
Proof. solve_decision. Defined.

Global Instance Payment_eq_dec : EqDecision Payment.t.
Proof. solve_decision. Defined.

(** ** Field updates *)

(** [t.acceptedBid = bid] *)
Definition set_acceptedBid (bid : Bid.t) (t : Task.t) : Task.t :=
  Task.mk (Task.id t) (Task.title t) (Task.description t) (Task.studentId t)
    (Task.studentName t) (Task.dueDate t) (Task.budget t) (Some bid).

(** [p.studentPaid = true; p.paidAt = now] *)
Definition set_paid (now : Z) (p : Payment.t) : Payment.t :=
  Payment.mk (Payment.id p) (Payment.taskId p) (Payment.amount p) true
    (Payment.createdAt p) (Some now).

Definition with_users (us : list User.t) (db : DB.t) : DB.t :=
  DB.mk us (DB.tasks db) (DB.bids db) (DB.payments db).

Definition with_tasks (ts : list Task.t) (db : DB.t) : DB.t :=
  DB.mk (DB.users db) ts (DB.bids db) (DB.payments db).

Definition with_bids (bs : list Bid.t) (db : DB.t) : DB.t :=
  DB.mk (DB.users db) (DB.tasks db) bs (DB.payments db).

Definition with_payments (ps : list Payment.t) (db : DB.t) : DB.t :=
  DB.mk (DB.users db) (DB.tasks db) (DB.bids db) ps.

(** ** The JSON round trip of the database *)

Definition JSON_bid (b : Bid.t) : Bid.t :=
  Bid.mk (Bid.id b) (Bid.taskId b) (Bid.tutorId b) (Bid.tutorName b)
    (JSON_amount (Bid.amount b)) (Bid.message b) (Bid.createdAt b).

Definition JSON_task (t : Task.t) : Task.t :=
  Task.mk (Task.id t) (Task.title t) (Task.description t) (Task.studentId t)
    (Task.studentName t) (Task.dueDate t) (Task.budget t)
    (JSON_bid <$> Task.acceptedBid t).

Definition JSON_payment (p : Payment.t) : Payment.t :=
  Payment.mk (Payment.id p) (Payment.taskId p) (JSON_amount (Payment.amount p))
    (Payment.studentPaid p) (Payment.createdAt p) (Payment.paidAt p).

(** [JSON.parse (JSON.stringify db)] *)
Definition JSON_db (db : DB.t) : DB.t :=
  DB.mk (DB.users db) (JSON_task <$> DB.tasks db) (JSON_bid <$> DB.bids db)
    (JSON_payment <$> DB.payments db).

(** The text of a database: the object that was serialised stands for it. *)
Inductive JsonText :=
| Stringify (db : DB.t).

Definition JSON_stringify (db : DB.t) : JsonText := Stringify db.

Definition JSON_parse (raw : JsonText) : DB.t :=
  match raw with
  | Stringify db => JSON_db db
  end.

(** ** The world and the handler monad *)

(** The item of [localStorage] at [DB_KEY] ([None] when there is none) and
    the messages passed to [alert], oldest first. *)
Record World := mkWorld {
  localStorage : option JsonText;
  alerts : list string
}.

(** How a handler ends: it returns, or an exception leaves it. *)
Inductive Completion (A : Type) :=
| Normal (a : A)
| Throw (e : JsError).
Arguments Normal {A} a.
Arguments Throw {A} e.

Definition Js (A : Type) : Type := World → Completion A * World.

Global Instance Js_ret : MRet Js := λ A a w, (Normal a, w).

Global Instance Js_bind : MBind Js := λ A B k m w,
  match m w with
  | (Normal a, w') => k a w'
  | (Throw e, w') => (Throw e, w')
  end.

Definition throw {A : Type} (e : JsError) : Js A := λ w, (Throw e, w).

Definition alert (msg : string) : Js unit := λ w,
  (Normal (), mkWorld (localStorage w) (alerts w ++ [msg])).

Definition setItem (raw : JsonText) : Js unit := λ w,
  (Normal (), mkWorld (Some raw) (alerts w)).

(** The world of a fresh browser profile. *)
Definition initial_world : World := mkWorld None [].

(** ** Mock DB helpers *)

Definition seed : DB.t := DB.mk [] [] [] [].

Definition getDB : Js DB.t := λ w,
  match localStorage w with
  | None => (_ ← setItem (JSON_stringify seed); mret seed) w
  | Some raw => (Normal (JSON_parse raw), w)
  end.

Definition saveDB (db : DB.t) : Js unit := setItem (JSON_stringify db).

(** The database a read of the world sees. *)
Definition db_of (w : World) : DB.t :=
  match localStorage w with
  | None => seed
  | Some raw => JSON_parse raw
  end.

(** [array.filter (callback)] with a callback that reads the world: the
    callback runs on every element in order. *)
Fixpoint filterM {A : Type} (f : A → Js bool) (l : list A) : Js (list A) :=
  match l with
  | [] => mret []
  | x :: l' =>
      b ← f x;
      r ← filterM f l';
      mret (if b : bool then x :: r else r)
  end.

(** ** Auth context *)

(** The object [register] and [login] pass to [setUser]; the handlers below
    take the [user] of the auth context as a parameter. *)
Definition session_of (u : User.t) : CurrentUser.t :=
  CurrentUser.mk (User.id u) (User.name u) (User.email u) (User.role u).

Definition register (name email password role : string) (now : Z) : Js User.t :=
  db ← getDB;
  match list_find (λ u, User.email u = email) (DB.users db) with
  | Some _ => throw (Error "Email already in use")
  | None =>
      let newUser := User.mk ("u_" +:+ pretty now) name email password role in
      _ ← saveDB (with_users (DB.users db ++ [newUser]) db);
      mret newUser
  end.

Definition login (email password : string) : Js User.t :=
  db ← getDB;
  match list_find (λ u, User.email u = email ∧ User.password u = password)
          (DB.users db) with
  | None => throw (Error "Invalid credentials")
  | Some (_, found) => mret found
  end.

(** ** TaskCard: which controls a task card offers *)

(** [user && user.role === 'tutor' && <BidForm task={task} />] *)
Definition TaskCard_showBidForm (user : option CurrentUser.t) : bool :=
  match user with
  | None => false
  | Some u => bool_decide (CurrentUser.role u = "tutor")
  end.

(** [user && user.role === 'student' && user.id === task.studentId &&
    <AcceptBidUI task={task} />] *)
Definition TaskCard_showAcceptBidUI (user : option CurrentUser.t) (task : Task.t) : bool :=
  match user with
  | None => false
  | Some u =>
      bool_decide (CurrentUser.role u = "student")
      && bool_decide (CurrentUser.id u = Task.studentId task)
  end.

(** [db.bids.filter (b => b.taskId === task.id)], as computed at render time
    by [TaskCard] and [AcceptBidUI]. *)
Definition bids_of_task (task : Task.t) : Js (list Bid.t) :=
  db ← getDB;
  mret (filter (λ b, Bid.taskId b = Task.id task) (DB.bids db)).

(** ** AcceptBidUI *)

Definition accept (task : Task.t) (bid : Bid.t) (now_id now_created : Z) : Js unit :=
  db2 ← getDB;
  match list_find (λ t, Task.id t = Task.id task) (DB.tasks db2) with
  | None => throw TypeError
  | Some (i, t) =>
      let db2 := with_tasks (<[i := set_acceptedBid bid t]> (DB.tasks db2)) db2 in
      let db2 :=
        with_payments
          (DB.payments db2 ++
             [Payment.mk ("p_" +:+ pretty now_id) (Task.id task) (Bid.amount bid)
                false now_created None]) db2 in
      _ ← saveDB db2;
      alert "Bid accepted. Payment pending (prototype)."
  end.

(** The Accept button: [bids] is the render-time list, [selected] the value
    of the select element ([null] until one is chosen). *)
Definition AcceptBidUI_onClick (task : Task.t) (bids : list Bid.t)
    (selected : option string) (now_id now_created : Z) : Js unit :=
  match list_find (λ x, Some (Bid.id x) = selected) bids with
  | None => alert "Select a bid first"
  | Some (_, b) => accept task b now_id now_created
  end.

(** ** PostTaskCard *)

Definition submit (user : option CurrentUser.t) (form : TaskForm.t) (now : Z) : Js unit :=
  match user with
  | Some u =>
      if decide (CurrentUser.role u ≠ "student")
      then alert "Please login as a student to post tasks"
      else
        db ← getDB;
        let task :=
          Task.mk ("t_" +:+ pretty now) (TaskForm.title form)
            (TaskForm.description form) (CurrentUser.id u) (CurrentUser.name u)
            (TaskForm.dueDate form) (TaskForm.budget form) None in
        _ ← saveDB (with_tasks (DB.tasks db ++ [task]) db);
        alert "Task posted"
  | None => alert "Please login as a student to post tasks"
  end.

(** ** PaymentsPage *)

(** The initial value of the [payments] state. The callback reads
    [user.role] only after the task has been found. *)
Definition PaymentsPage_payments (user : option CurrentUser.t) : Js (list Payment.t) :=
  db0 ← getDB;
  filterM (λ p,
    db ← getDB;
    match list_find (λ x, Task.id x = Payment.taskId p) (DB.tasks db) with
    | None => mret false
    | Some (_, t) =>
        match user with
        | None => throw TypeError
        | Some u =>
            mret (if decide (CurrentUser.role u = "student")
                  then bool_decide (Task.studentId t = CurrentUser.id u)
                  else true)
        end
    end) (DB.payments db0).

(** [pay] maps the [payments] state [prev] of the page to its next value. *)
Definition pay (payment : Payment.t) (now : Z) (prev : list Payment.t) : Js (list Payment.t) :=
  db ← getDB;
  match list_find (λ x, Payment.id x = Payment.id payment) (DB.payments db) with
  | None => throw TypeError
  | Some (i, p0) =>
      let p := set_paid now p0 in
      _ ← saveDB (with_payments (<[i := p]> (DB.payments db)) db);
      let next := (λ x, if decide (Payment.id x = Payment.id p) then p else x) <$> prev in
      _ ← alert "Marked as paid (prototype). In production, integrate Stripe Checkout or Payment Intents.";
      mret next
  end.

(** [!p.studentPaid && user.role === 'student' && <button>Pay</button>] *)
Definition PaymentsPage_showPay (user : CurrentUser.t) (p : Payment.t) : bool :=
  negb (Payment.studentPaid p) && bool_decide (CurrentUser.role user = "student").

(** ** Number conversion used by the examples *)

(** The development is parametric in the conversion [Number (string)]; this
    instance serves the concrete runs and is not ECMAScript's [Number]. It
    agrees with it on decimal integer literals with an optional minus sign
    and on text that is no number at all, which is all the runs below
    convert ("400", "450", "-400", "abc"); every other string is sent to
    [NaN], where ECMAScript gives a number for the empty string, fractions,
    exponents, a plus sign, surrounding blanks and hexadecimal literals. *)
Definition Number_of_integer_literal (s : string) : spec_float :=
  match NilZero.int_of_string s with
  | Some i => js_of_Z (Z.of_int i)
  | None => S754_nan
  end.

Section Handlers.

(** ECMAScript's [Number (string)] (StringToNumber), not implemented here. *)
Variable Number : string → spec_float.

(** ** BidForm *)

Definition submitBid (user : option CurrentUser.t) (task : Task.t)
    (amount message : string) (now_id now_created : Z) : Js unit :=
  match user with
  | None => alert "Please login as a tutor to bid"
  | Some u =>
      db ← getDB;
      let bid :=
        Bid.mk ("b_" +:+ pretty now_id) (Task.id task) (CurrentUser.id u)
          (CurrentUser.name u) (JNumber (Number amount)) message now_created in
      _ ← saveDB (with_bids (DB.bids db ++ [bid]) db);
      alert "Bid submitted"
  end.

(** ** Runs of the application *)

(** What can happen to the world: a render that reads the database, or one
    of the handlers, with the arguments and clock readings it gets. *)
Inductive Event :=
| Render
| Register (name email password role : string) (now : Z)
| Login (email password : string)
| PostTask (user : option CurrentUser.t) (form : TaskForm.t) (now : Z)
| SubmitBid (user : option CurrentUser.t) (task : Task.t) (amount message : string)
    (now_id now_created : Z)
| Accept (task : Task.t) (bid : Bid.t) (now_id now_created : Z)
| Pay (payment : Payment.t) (now : Z).

Definition exec (ev : Event) : Js unit :=
  match ev with
  | Render => _ ← getDB; mret ()
  | Register name email password role now =>
      _ ← register name email password role now; mret ()
  | Login email password => _ ← login email password; mret ()
  | PostTask user form now => submit user form now
  | SubmitBid user task amount message now_id now_created =>
      submitBid user task amount message now_id now_created
  | Accept task bid now_id now_created => accept task bid now_id now_created
  | Pay payment now => _ ← pay payment now []; mret ()
  end.

Definition step (w : World) (ev : Event) : World := (exec ev w).2.

Definition run (evs : list Event) (w : World) : World := foldl step w evs.

End Handlers.

(** ** Views of a database *)

(** The payments of a task: those with [payment.taskId === id]. *)
Definition payments_for (id : string) (db : DB.t) : list Payment.t :=
  filter (λ p, Payment.taskId p = id) (DB.payments db).

(** [db.tasks.find (x => x.id === id)] *)
Definition find_task (id : string) (db : DB.t) : option (nat * Task.t) :=
  list_find (λ x, Task.id x = id) (DB.tasks db).

(** [db.payments.find (x => x.id === id)] *)
Definition find_payment (id : string) (db : DB.t) : option (nat * Payment.t) :=
  list_find (λ x, Payment.id x = id) (DB.payments db).

Definition task_ids (db : DB.t) : list string := Task.id <$> DB.tasks db.

Definition bid_ids (db : DB.t) : list string := Bid.id <$> DB.bids db.

(** The clock readings at which the events of a run create a task, in order:
    [submit] creates one when a student is logged in. *)
Definition task_stamps (evs : list Event) : list Z :=
  evs ≫= λ ev,
    match ev with
    | PostTask (Some u) _ now =>
        if decide (CurrentUser.role u = "student") then [now] else []
    | _ => []
    end.

(** The clock readings at which the events of a run create a bid, in order:
    [submitBid] creates one when somebody is logged in. *)
Definition bid_stamps (evs : list Event) : list Z :=
  evs ≫= λ ev,
    match ev with
    | SubmitBid (Some _) _ _ _ now_id _ => [now_id]
    | _ => []
    end.

(** The owner of the task of a payment: [t.studentId] of the task that
    [db.tasks.find (x => x.id === p.taskId)] gives, if it gives one. *)
Definition task_owner (db : DB.t) (p : Payment.t) : option string :=
  (λ it : nat * Task.t, Task.studentId it.2) <$> find_task (Payment.taskId p) db.

(** What the filter callback of [PaymentsPage] answers for a logged-in user
    when it reads [db]. *)
Definition visible_to (u : CurrentUser.t) (db : DB.t) (p : Payment.t) : bool :=
  match find_task (Payment.taskId p) db with
  | None => false
  | Some (_, t) =>
      if decide (CurrentUser.role u = "student")
      then bool_decide (Task.studentId t = CurrentUser.id u)
      else true
  end.

(** Every payment is on a task of the store. *)
Definition payments_resolve (db : DB.t) : Prop :=
  ∀ p, p ∈ DB.payments db → Payment.taskId p ∈ task_ids db.

(** The event invokes [accept] on the task id. *)
Definition is_accept_on (id : string) (ev : Event) : Prop :=
  match ev with
  | Accept task _ _ _ => Task.id task = id
  | _ => False
  end.

Global Instance is_accept_on_dec id ev : Decision (is_accept_on id ev).
Proof. destruct ev; simpl; apply _. Defined.

(** How many times the events of a run invoke [accept] on the task id. *)
Definition accepts_on (id : string) (evs : list Event) : nat :=
  length (filter (is_accept_on id) evs).

(** The world an aborted handler leaves: a first [getDB] has written the
    seed when there was no item. *)
Definition seeded (w : World) : World :=
  mkWorld (Some (default (JSON_stringify seed) (localStorage w))) (alerts w).

(** The payment [accept] pushes. *)
Definition new_payment (task : Task.t) (bid : Bid.t) (now_id now_created : Z) : Payment.t :=
  Payment.mk ("p_" +:+ pretty now_id) (Task.id task) (Bid.amount bid) false
    now_created None.

(** ** The effect of an event on the database

    [next_db] is what [db_of] reads after the event, as a function of what it
    read before; [step_db] below proves it against the handlers. *)

Section Effect.

Variable Number : string → spec_float.

Definition next_db (db : DB.t) (ev : Event) : DB.t :=
  match ev with
  | Render => db
  | Login _ _ => db
  | Register name email password role now =>
      match list_find (λ u, User.email u = email) (DB.users db) with
      | Some _ => db
      | None =>
          with_users
            (DB.users db ++ [User.mk ("u_" +:+ pretty now) name email password role]) db
      end
  | PostTask user form now =>
      match user with
      | None => db
      | Some u =>
          if decide (CurrentUser.role u = "student")
          then
            with_tasks
              (DB.tasks db ++
                 [Task.mk ("t_" +:+ pretty now) (TaskForm.title form)
                    (TaskForm.description form) (CurrentUser.id u)
                    (CurrentUser.name u) (TaskForm.dueDate form)
                    (TaskForm.budget form) None]) db
          else db
      end
  | SubmitBid user task amount message now_id now_created =>
      match user with
      | None => db
      | Some u =>
          with_bids
            (DB.bids db ++
               [Bid.mk ("b_" +:+ pretty now_id) (Task.id task) (CurrentUser.id u)
                  (CurrentUser.name u) (JSON_amount (JNumber (Number amount)))
                  message now_created]) db
      end
  | Accept task bid now_id now_created =>
      match find_task (Task.id task) db with
      | None => db
      | Some (i, t) =>
          DB.mk (DB.users db)
            (<[i := set_acceptedBid (JSON_bid bid) t]> (DB.tasks db))
            (DB.bids db)
            (DB.payments db ++ [new_payment task (JSON_bid bid) now_id now_created])
      end
  | Pay payment now =>
      match find_payment (Payment.id payment) db with
      | None => db
      | Some (i, p0) => with_payments (<[i := set_paid now p0]> (DB.payments db)) db
      end
  end.

End Effect.

(** ** A scenario: one task, two bids *)

Definition sue : CurrentUser.t := CurrentUser.mk "u_1" "Sue" "sue@example.org" "student".
Definition tom : CurrentUser.t := CurrentUser.mk "u_2" "Tom" "tom@example.org" "tutor".
Definition tia : CurrentUser.t := CurrentUser.mk "u_3" "Tia" "tia@example.org" "tutor".

Definition essay_form : TaskForm.t := TaskForm.mk "Essay help" "" "2030-01-01" "500".

Definition essay : Task.t :=
  Task.mk "t_1000" "Essay help" "" "u_1" "Sue" "2030-01-01" "500" None.

Definition bidA : Bid.t :=
  Bid.mk "b_2000" "t_1000" "u_2" "Tom" (JNumber (js_of_Z 400)) "can do" 2000.

Definition bidB : Bid.t :=
  Bid.mk "b_3000" "t_1000" "u_3" "Tia" (JNumber (js_of_Z 450)) "" 3000.

(** Sue posts the task, Tom and Tia bid on it. *)
Definition bidding : list Event :=
  [ PostTask (Some sue) essay_form 1000;
    SubmitBid (Some tom) essay "400" "can do" 2000 2000;
    SubmitBid (Some tia) essay "450" "" 3000 3000 ].

Definition world_open : World := run Number_of_integer_literal bidding initial_world.

(** Sue has accepted Tom's bid. *)
Definition world_accepted : World :=
  run Number_of_integer_literal [Accept essay bidA 4000 4000] world_open.

(** ... and then Tia's. *)
Definition world_accepted_twice : World :=
  run Number_of_integer_literal [Accept essay bidB 5000 5000] world_accepted.

(** The payment of the first acceptance, as the store holds it. *)
Definition paymentA : Payment.t :=
  Payment.mk "p_4000" "t_1000" (JNumber (js_of_Z 400)) false 4000 None.

(** Sue has paid it. *)
Definition world_paid : World :=
  run Number_of_integer_literal [Pay paymentA 6000] world_accepted.

(** A storage whose only payment is on a task that is not there. *)
Definition orphan : Payment.t :=
  Payment.mk "p_1" "t_gone" (JNumber (js_of_Z 100)) false 1 None.

Definition world_dangling : World :=
  mkWorld (Some (JSON_stringify (DB.mk [] [] [] [orphan]))) [].

(** Two tasks posted at one clock reading, and two bids made at another. *)
Definition same_tick : list Event :=
  [ PostTask (Some sue) essay_form 1000;
    PostTask (Some sue) essay_form 1000;
    SubmitBid (Some tom) essay "400" "can do" 2000 2000;
    SubmitBid (Some tia) essay "450" "" 2000 2001 ].

(** ** More of the application: login page, task lists *)

(** [try { body } catch (error) { handler (error) }] *)
Definition try_catch {A : Type} (body : Js A) (handler : JsError → Js A) : Js A := λ w,
  match body w with
  | (Normal a, w') => (Normal a, w')
  | (Throw e, w') => handler e w'
  end.

(** The form state of [LoginPage]. *)
Module LoginForm.
Record t := mk {
  name : string;
  email : string;
  password : string;
  role : string
}.
End LoginForm.

(** How [handleSubmit] of [LoginPage] ends: [register] or [login] has called
    [setUser] with the session and the page navigates to the dashboard, or
    the error caught is shown ([setErr (error.message)]). *)
Inductive LoginOutcome :=
| Navigated (user : CurrentUser.t)
| ShowsError (error : JsError).

Definition handleSubmit (mode : string) (form : LoginForm.t) (now : Z) : Js LoginOutcome :=
  try_catch
    (u ← (if decide (mode = "register")
          then register (LoginForm.name form) (LoginForm.email form)
                 (LoginForm.password form) (LoginForm.role form) now
          else login (LoginForm.email form) (LoginForm.password form));
     mret (Navigated (session_of u)))
    (λ error, mret (ShowsError error)).

(** [TasksList]: the cards in the order shown,
    [tasks.slice ().reverse ()] of the tasks read at mount. *)
Definition TasksList_cards : Js (list Task.t) :=
  db ← getDB;
  mret (reverse (DB.tasks db)).

(** [MyTasks]: the initial value of its [tasks] state. *)
Definition MyTasks_tasks (user : option CurrentUser.t) : Js (list Task.t) :=
  db ← getDB;
  mret (filter (λ t, Task.studentId t = from_option CurrentUser.id "" user)
          (DB.tasks db)).

(** [MyTasks]: the value its effect sets. The callback reads [user.id], on
    every task, so a missing user throws as soon as there is a task. *)
Definition MyTasks_effect (user : option CurrentUser.t) : Js (list Task.t) :=
  db ← getDB;
  match user with
  | Some u => mret (filter (λ t, Task.studentId t = CurrentUser.id u) (DB.tasks db))
  | None =>
      match DB.tasks db with
      | [] => mret []
      | _ :: _ => throw TypeError
      end
  end.

Definition user_emails (db : DB.t) : list string := User.email <$> DB.users db.

(** The accepted bid of the task that [db.tasks.find (x => x.id === id)]
    gives, if it gives one and the task has one. *)
Definition accepted_bid_of (id : string) (db : DB.t) : option Bid.t :=
  find_task id db ≫= λ it, Task.acceptedBid it.2.

(** A registered user, for the runs. *)
Definition sue_user : User.t :=
  User.mk "u_1" "Sue" "sue@example.org" "secret" "student".

Definition sue_form : LoginForm.t :=
  LoginForm.mk "Sue" "sue@example.org" "secret" "student".

Definition world_registered : World :=
  run Number_of_integer_literal
    [Register "Sue" "sue@example.org" "secret" "student" 1] initial_world.

(** ** The bid control of a task card *)

(** A control of a page, for a given user: the component is not rendered, so
    there is nothing to click, or its handler has run. *)
Inductive Control (A : Type) :=
| NotRendered
| Clicked (a : A).
Arguments NotRendered {A}.
Arguments Clicked {A} a.

Section BidControl.

Variable Number : string → spec_float.

(** Bidding on a task card: [TaskCard] renders
    [user && user.role === 'tutor' && <BidForm task={task} />], and the Bid
    button of [BidForm] runs [submitBid] with the same [user]. *)
Definition TaskCard_bid (user : option CurrentUser.t) (task : Task.t)
    (amount message : string) (now_id now_created : Z) : Js (Control unit) :=
  if TaskCard_showBidForm user
  then
    _ ← submitBid Number user task amount message now_id now_created;
    mret (Clicked ())
  else mret NotRendered.

End BidControl.

(** * Properties *)

Section Properties.

Variable Number : string → spec_float.

(** ** The JSON round trip *)

Lemma JSON_amount_idemp v : JSON_amount (JSON_amount v) = JSON_amount v.
Proof. destruct v as [|[]]; reflexivity. Qed.

Lemma JSON_bid_idemp b : JSON_bid (JSON_bid b) = JSON_bid b.
Proof. unfold JSON_bid; simpl. by rewrite JSON_amount_idemp. Qed.

Lemma JSON_task_idemp t : JSON_task (JSON_task t) = JSON_task t.
Proof.
  unfold JSON_task; simpl. f_equal.
  destruct (Task.acceptedBid t); simpl; [|done]. by rewrite JSON_bid_idemp.
Qed.

Lemma JSON_payment_idemp p : JSON_payment (JSON_payment p) = JSON_payment p.
Proof. unfold JSON_payment; simpl. by rewrite JSON_amount_idemp. Qed.

Lemma fmap_idemp {A} (f : A → A) (l : list A) :
  (∀ x, f (f x) = f x) → f <$> (f <$> l) = f <$> l.
Proof. intros Hf. rewrite <- list_fmap_compose. apply list_fmap_ext. intros; apply Hf. Qed.

Lemma JSON_db_idemp db : JSON_db (JSON_db db) = JSON_db db.
Proof.
  unfold JSON_db; simpl.
  rewrite (fmap_idemp _ _ JSON_task_idemp), (fmap_idemp _ _ JSON_bid_idemp),
    (fmap_idemp _ _ JSON_payment_idemp). reflexivity.
Qed.

(** What is read from storage has been through JSON. *)
Lemma db_of_JSON w : JSON_db (db_of w) = db_of w.
Proof.
  unfold db_of. destruct (localStorage w) as [[db]|]; simpl; [|reflexivity].
  apply JSON_db_idemp.
Qed.

Lemma tasks_JSON w : JSON_task <$> DB.tasks (db_of w) = DB.tasks (db_of w).
Proof. by rewrite <- (db_of_JSON w) at 2. Qed.

Lemma bids_JSON w : JSON_bid <$> DB.bids (db_of w) = DB.bids (db_of w).
Proof. by rewrite <- (db_of_JSON w) at 2. Qed.

Lemma payments_JSON w : JSON_payment <$> DB.payments (db_of w) = DB.payments (db_of w).
Proof. by rewrite <- (db_of_JSON w) at 2. Qed.

Lemma fmap_fixed_elem {A} (f : A → A) (l : list A) x :
  f <$> l = l → x ∈ l → f x = x.
Proof.
  intros Hl [i Hi]%list_elem_of_lookup.
  assert ((f <$> l) !! i = Some (f x)) as H by (by rewrite list_lookup_fmap, Hi).
  rewrite Hl, Hi in H. congruence.
Qed.

Lemma stored_bid_JSON w b : b ∈ DB.bids (db_of w) → JSON_bid b = b.
Proof. apply fmap_fixed_elem, bids_JSON. Qed.

Lemma stored_task_JSON w t : t ∈ DB.tasks (db_of w) → JSON_task t = t.
Proof. apply fmap_fixed_elem, tasks_JSON. Qed.

Lemma stored_payment_JSON w p : p ∈ DB.payments (db_of w) → JSON_payment p = p.
Proof. apply fmap_fixed_elem, payments_JSON. Qed.

(** ** The handlers as equations on the world *)

Lemma db_of_seeded w : db_of (seeded w) = db_of w.
Proof. unfold db_of, seeded. destruct (localStorage w); reflexivity. Qed.

Lemma getDB_eq w : getDB w = (Normal (db_of w), seeded w).
Proof.
  unfold getDB, db_of, seeded. destruct w as [[raw|] al]; reflexivity.
Qed.

Lemma bind_getDB {A} (k : DB.t → Js A) w : (db ← getDB; k db) w = k (db_of w) (seeded w).
Proof. unfold mbind, Js_bind. by rewrite getDB_eq. Qed.

Lemma accept_eq task bid now_id now_created w :
  accept task bid now_id now_created w =
  match find_task (Task.id task) (db_of w) with
  | None => (Throw TypeError, seeded w)
  | Some (i, t) =>
      (Normal (),
       mkWorld
         (Some (JSON_stringify
            (DB.mk (DB.users (db_of w))
               (<[i := set_acceptedBid bid t]> (DB.tasks (db_of w)))
               (DB.bids (db_of w))
               (DB.payments (db_of w) ++ [new_payment task bid now_id now_created]))))
         (alerts w ++ ["Bid accepted. Payment pending (prototype)."]))
  end.
Proof.
  unfold accept. rewrite bind_getDB. unfold find_task.
  destruct (list_find _ _) as [[i t]|]; reflexivity.
Qed.

Lemma list_find_insert_same {A} (P : A → Prop) `{∀ x, Decision (P x)}
    (l : list A) i x y :
  list_find P l = Some (i, x) → P y → list_find P (<[i := y]> l) = Some (i, y).
Proof.
  intros (Hi & _ & Hleast)%list_find_Some Hy. apply list_find_Some.
  split_and!; [|done|].
  - apply list_lookup_insert_eq. by eapply lookup_lt_Some.
  - intros j z Hj Hlt. rewrite list_lookup_insert_ne in Hj by lia. eauto.
Qed.

(** The database after [accept]. *)
Lemma accept_db task bid now_id now_created w :
  db_of (accept task bid now_id now_created w).2 =
  match find_task (Task.id task) (db_of w) with
  | None => db_of w
  | Some (i, t) =>
      DB.mk (DB.users (db_of w))
        (<[i := set_acceptedBid (JSON_bid bid) t]> (DB.tasks (db_of w)))
        (DB.bids (db_of w))
        (DB.payments (db_of w) ++ [new_payment task (JSON_bid bid) now_id now_created])
  end.
Proof.
  rewrite accept_eq. destruct (find_task _ _) as [[i t]|]; simpl.
  - unfold db_of; simpl. unfold JSON_db; simpl. fold (db_of w).
    rewrite list_fmap_insert, fmap_app, tasks_JSON, bids_JSON, payments_JSON.
    reflexivity.
  - apply db_of_seeded.
Qed.

Lemma accept_result task bid now_id now_created w :
  (accept task bid now_id now_created w).1 =
  match find_task (Task.id task) (db_of w) with
  | None => Throw TypeError
  | Some _ => Normal ()
  end.
Proof. rewrite accept_eq. by destruct (find_task _ _) as [[i t]|]. Qed.

Lemma payments_for_push us ts bs db task bid now_id now_created :
  length (payments_for (Task.id task)
    (DB.mk us ts bs (DB.payments db ++ [new_payment task bid now_id now_created]))) =
  S (length (payments_for (Task.id task) db)).
Proof.
  unfold payments_for; simpl. rewrite filter_app, length_app.
  rewrite filter_cons_True by done. rewrite filter_nil. simpl. lia.
Qed.

Lemma submit_eq user form now w :
  submit user form now w =
  match user with
  | Some u =>
      if decide (CurrentUser.role u = "student")
      then
        (Normal (),
         mkWorld
           (Some (JSON_stringify
              (with_tasks
                 (DB.tasks (db_of w) ++
                    [Task.mk ("t_" +:+ pretty now) (TaskForm.title form)
                       (TaskForm.description form) (CurrentUser.id u)
                       (CurrentUser.name u) (TaskForm.dueDate form)
                       (TaskForm.budget form) None]) (db_of w))))
           (alerts w ++ ["Task posted"]))
      else alert "Please login as a student to post tasks" w
  | None => alert "Please login as a student to post tasks" w
  end.
Proof.
  unfold submit. destruct user as [u|]; [|done].
  destruct (decide (CurrentUser.role u = "student")) as [Hr|Hr].
  - rewrite decide_False by (intros ?; contradiction). by rewrite bind_getDB.
  - by rewrite decide_True.
Qed.

Lemma submitBid_eq user task amount message now_id now_created w :
  submitBid Number user task amount message now_id now_created w =
  match user with
  | None => alert "Please login as a tutor to bid" w
  | Some u =>
      (Normal (),
       mkWorld
         (Some (JSON_stringify
            (with_bids
               (DB.bids (db_of w) ++
                  [Bid.mk ("b_" +:+ pretty now_id) (Task.id task) (CurrentUser.id u)
                     (CurrentUser.name u) (JNumber (Number amount)) message
                     now_created]) (db_of w))))
         (alerts w ++ ["Bid submitted"]))
  end.
Proof.
  unfold submitBid. destruct user as [u|]; [|done]. by rewrite bind_getDB.
Qed.

Lemma pay_eq payment now prev w :
  pay payment now prev w =
  match find_payment (Payment.id payment) (db_of w) with
  | None => (Throw TypeError, seeded w)
  | Some (i, p0) =>
      (Normal ((λ x, if decide (Payment.id x = Payment.id (set_paid now p0))
                     then set_paid now p0 else x) <$> prev),
       mkWorld
         (Some (JSON_stringify
            (with_payments (<[i := set_paid now p0]> (DB.payments (db_of w))) (db_of w))))
         (alerts w ++
            ["Marked as paid (prototype). In production, integrate Stripe Checkout or Payment Intents."]))
  end.
Proof.
  unfold pay. rewrite bind_getDB. unfold find_payment.
  destruct (list_find _ _) as [[i p0]|]; reflexivity.
Qed.

Lemma db_of_saved db al :
  db_of (mkWorld (Some (JSON_stringify db)) al) = JSON_db db.
Proof. reflexivity. Qed.

(** The database after [pay]. *)
Lemma pay_db payment now prev w :
  db_of (pay payment now prev w).2 =
  match find_payment (Payment.id payment) (db_of w) with
  | None => db_of w
  | Some (i, p0) =>
      with_payments (<[i := set_paid now p0]> (DB.payments (db_of w))) (db_of w)
  end.
Proof.
  rewrite pay_eq.
  destruct (find_payment _ _) as [[i p0]|] eqn:Hfind; simpl; [|apply db_of_seeded].
  rewrite db_of_saved. unfold JSON_db; simpl.
  rewrite list_fmap_insert, tasks_JSON, bids_JSON, payments_JSON.
  unfold with_payments. do 2 f_equal.
  apply list_find_Some in Hfind as (Hi%list_elem_of_lookup_2 & _).
  apply stored_payment_JSON in Hi.
  change (JSON_payment (set_paid now p0)) with (set_paid now (JSON_payment p0)).
  by rewrite Hi.
Qed.

(** The handlers implement [next_db]. *)
Lemma step_db w ev : db_of (step Number w ev) = next_db Number (db_of w) ev.
Proof.
  unfold step. destruct ev as [|name email password role now|email password
    |user form now|user task amount message now_id now_created
    |task bid now_id now_created|payment now]; simpl.
  - unfold mbind, Js_bind. rewrite getDB_eq. simpl. apply db_of_seeded.
  - unfold register, mbind, Js_bind. rewrite getDB_eq.
    destruct (list_find _ _) as [[? ?]|]; simpl; [apply db_of_seeded|].
    unfold db_of at 1; simpl. unfold JSON_db; simpl.
    by rewrite tasks_JSON, bids_JSON, payments_JSON.
  - unfold login, mbind, Js_bind. rewrite getDB_eq.
    destruct (list_find _ _) as [[? ?]|]; simpl; apply db_of_seeded.
  - rewrite submit_eq. destruct user as [u|]; [|done].
    destruct (decide _); [|done]. simpl. rewrite db_of_saved.
    unfold JSON_db; simpl.
    by rewrite fmap_app, tasks_JSON, bids_JSON, payments_JSON.
  - rewrite submitBid_eq. destruct user as [u|]; [|done]. simpl.
    rewrite db_of_saved. unfold JSON_db; simpl.
    by rewrite fmap_app, tasks_JSON, bids_JSON, payments_JSON.
  - apply accept_db.
  - replace (db_of _) with (db_of (pay payment now [] w).2); [apply pay_db|].
    unfold mbind, Js_bind. by destruct (pay payment now [] w) as [[?|?] ?].
Qed.

Lemma run_db evs w : db_of (run Number evs w) = foldl (next_db Number) (db_of w) evs.
Proof.
  revert w. induction evs as [|ev evs IH]; intros w; simpl; [done|].
  change (db_of (run Number evs (step Number w ev)) =
    foldl (next_db Number) (next_db Number (db_of w) ev) evs).
  by rewrite IH, step_db.
Qed.

(** ** Ids *)

Lemma task_ids_insert db i t t' :
  DB.tasks db !! i = Some t → Task.id t' = Task.id t →
  Task.id <$> <[i := t']> (DB.tasks db) = task_ids db.
Proof.
  intros Hi Hid. unfold task_ids. rewrite list_fmap_insert. apply list_insert_id.
  by rewrite list_lookup_fmap, Hi, Hid.
Qed.

Lemma find_task_lookup id db i t :
  find_task id db = Some (i, t) → DB.tasks db !! i = Some t ∧ Task.id t = id.
Proof. intros (? & ? & _)%list_find_Some. done. Qed.

Lemma find_payment_lookup id db i p :
  find_payment id db = Some (i, p) → DB.payments db !! i = Some p ∧ Payment.id p = id.
Proof. intros (? & ? & _)%list_find_Some. done. Qed.

Lemma next_db_task_ids db ev :
  task_ids (next_db Number db ev) =
  task_ids db ++ ((λ n : Z, "t_" +:+ pretty n) <$> task_stamps [ev]).
Proof.
  unfold task_stamps; simpl. rewrite app_nil_r.
  destruct ev as [|name email password role now|email password
    |user form now|user task amount message now_id now_created
    |task bid now_id now_created|payment now]; simpl;
    rewrite ?app_nil_r; try done.
  - by destruct (list_find _ _).
  - destruct user as [u|]; simpl; [|by rewrite app_nil_r].
    destruct (decide _); simpl; [|by rewrite app_nil_r].
    unfold task_ids; simpl. by rewrite fmap_app.
  - by destruct user.
  - destruct (find_task _ _) as [[i t]|] eqn:Hfind; [|done].
    apply find_task_lookup in Hfind as [Hi _].
    unfold task_ids at 1; simpl. by eapply task_ids_insert.
  - by destruct (find_payment _ _) as [[i p0]|].
Qed.

Lemma next_db_bid_ids db ev :
  bid_ids (next_db Number db ev) =
  bid_ids db ++ ((λ n : Z, "b_" +:+ pretty n) <$> bid_stamps [ev]).
Proof.
  unfold bid_stamps; simpl. rewrite app_nil_r.
  destruct ev as [|name email password role now|email password
    |user form now|user task amount message now_id now_created
    |task bid now_id now_created|payment now]; simpl;
    rewrite ?app_nil_r; try done.
  - by destruct (list_find _ _).
  - destruct user as [u|]; [|done]. by destruct (decide _).
  - destruct user as [u|]; simpl; [|by rewrite app_nil_r].
    unfold bid_ids; simpl. by rewrite fmap_app.
  - by destruct (find_task _ _) as [[i t]|].
  - by destruct (find_payment _ _) as [[i p0]|].
Qed.

Lemma task_stamps_cons ev evs : task_stamps (ev :: evs) = task_stamps [ev] ++ task_stamps evs.
Proof. unfold task_stamps; simpl. by rewrite app_nil_r. Qed.

Lemma bid_stamps_cons ev evs : bid_stamps (ev :: evs) = bid_stamps [ev] ++ bid_stamps evs.
Proof. unfold bid_stamps; simpl. by rewrite app_nil_r. Qed.

Lemma foldl_task_ids evs db :
  task_ids (foldl (next_db Number) db evs) =
  task_ids db ++ ((λ n : Z, "t_" +:+ pretty n) <$> task_stamps evs).
Proof.
  revert db. induction evs as [|ev evs IH]; intros db.
  - simpl. by rewrite app_nil_r.
  - cbn [foldl]. rewrite IH, next_db_task_ids, (task_stamps_cons ev evs), fmap_app.
    by rewrite <- app_assoc.
Qed.

Lemma foldl_bid_ids evs db :
  bid_ids (foldl (next_db Number) db evs) =
  bid_ids db ++ ((λ n : Z, "b_" +:+ pretty n) <$> bid_stamps evs).
Proof.
  revert db. induction evs as [|ev evs IH]; intros db.
  - simpl. by rewrite app_nil_r.
  - cbn [foldl]. rewrite IH, next_db_bid_ids, (bid_stamps_cons ev evs), fmap_app.
    by rewrite <- app_assoc.
Qed.

Lemma NoDup_fmap_inj {A B} (f : A → B) (l : list A) :
  Inj (=) (=) f → NoDup (f <$> l) ↔ NoDup l.
Proof. intros Hf. split; [apply NoDup_fmap_1|by apply NoDup_fmap_2]. Qed.

Global Instance prefixed_id_inj (pre : string) : Inj (=) (=) (λ n : Z, pre +:+ pretty n).
Proof.
  intros x y Heq. simpl in Heq.
  apply (inj (String.app pre)) in Heq. by apply (inj pretty) in Heq.
Qed.

(** C9, as the code has it. From the empty storage, the ids of the tasks are
    the strings ["t_" + now] of the clock readings at which the tasks were
    created, and likewise ["b_" + now] for the bids: they are pairwise
    distinct exactly when those readings are. *)
Theorem ids_unique_iff_clock_readings_distinct (evs : list Event) :
  let db := db_of (run Number evs initial_world) in
  task_ids db = (λ n : Z, "t_" +:+ pretty n) <$> task_stamps evs ∧
  bid_ids db = (λ n : Z, "b_" +:+ pretty n) <$> bid_stamps evs ∧
  (NoDup (task_ids db) ↔ NoDup (task_stamps evs)) ∧
  (NoDup (bid_ids db) ↔ NoDup (bid_stamps evs)).
Proof.
  intros db. subst db. rewrite run_db.
  rewrite foldl_task_ids, foldl_bid_ids. simpl.
  split_and!; try done; apply NoDup_fmap_inj, _.
Qed.

(** ** Acceptance *)

(** The Accept button hands [accept] a bid of the render-time list, which was
    read from the database, with the selected id. *)
Lemma AcceptBidUI_onClick_eq (w0 w : World) task selected now_id now_created :
  let bids := (bids_of_task task w0).1 in
  (∃ b, bids = Normal b ∧
     match list_find (λ x, Some (Bid.id x) = selected) b with
     | None =>
         AcceptBidUI_onClick task b selected now_id now_created w =
         alert "Select a bid first" w
     | Some (_, bid) =>
         bid ∈ DB.bids (db_of w0) ∧ Some (Bid.id bid) = selected ∧
         AcceptBidUI_onClick task b selected now_id now_created w =
         accept task bid now_id now_created w
     end).
Proof.
  unfold bids_of_task. rewrite bind_getDB. simpl. eexists; split; [done|].
  unfold AcceptBidUI_onClick.
  destruct (list_find _ _) as [[i bid]|] eqn:Hfind; [|done].
  apply list_find_Some in Hfind as (Hi%list_elem_of_lookup_2 & ? & _).
  apply list_elem_of_filter in Hi as [_ ?]. done.
Qed.

(** C3. [accept] either returns, and then the first task with the id of
    [task] holds the bid as its accepted bid and one payment has been pushed
    whose task is that id, whose amount is the bid's and which is not paid,
    tasks and payments being written by the same [saveDB]; or it throws on a
    task id that does not resolve, and the database is as it was. The bid is
    one that was read from the database, as the bids of [AcceptBidUI] are. *)
Theorem accept_sets_bid_and_creates_payment (w0 w : World) (task : Task.t)
    (bid : Bid.t) (now_id now_created : Z) :
  bid ∈ DB.bids (db_of w0) →
  let r := (accept task bid now_id now_created w).1 in
  let w' := (accept task bid now_id now_created w).2 in
  (r = Normal () ∧
   ∃ i t,
     find_task (Task.id task) (db_of w) = Some (i, t) ∧
     DB.tasks (db_of w') = <[i := set_acceptedBid bid t]> (DB.tasks (db_of w)) ∧
     find_task (Task.id task) (db_of w') = Some (i, set_acceptedBid bid t) ∧
     Bid.id <$> Task.acceptedBid (set_acceptedBid bid t) = Some (Bid.id bid) ∧
     DB.payments (db_of w') =
       DB.payments (db_of w) ++
         [Payment.mk ("p_" +:+ pretty now_id) (Task.id task) (Bid.amount bid)
            false now_created None] ∧
     length (payments_for (Task.id task) (db_of w')) =
       S (length (payments_for (Task.id task) (db_of w))) ∧
     DB.bids (db_of w') = DB.bids (db_of w) ∧
     DB.users (db_of w') = DB.users (db_of w))
  ∨ (r = Throw TypeError ∧
     find_task (Task.id task) (db_of w) = None ∧
     db_of w' = db_of w).
Proof.
  intros Hbid r w'. subst r w'. rewrite accept_result, accept_db.
  rewrite (stored_bid_JSON _ _ Hbid).
  destruct (find_task _ _) as [[i t]|] eqn:Hfind; [left|right; done].
  split; [done|]. exists i, t. split_and!; try done.
  - unfold find_task in *; simpl.
    eapply list_find_insert_same; [done|].
    simpl. by apply list_find_Some in Hfind as (_ & ? & _).
  - apply payments_for_push.
Qed.

(** C2, as the code has it. On a task whose accepted bid is already set,
    [accept] with any bid returns normally: the accepted bid of the task is
    replaced by the bid given (as JSON holds it) and one more payment is
    pushed. [TaskCard] offers the accept control whether or not the task has
    an accepted bid: to the student who owns it, always. *)
Theorem accept_again_overwrites (w : World) (task : Task.t) (bid b0 : Bid.t)
    (now_id now_created : Z) (i : nat) (t : Task.t) :
  find_task (Task.id task) (db_of w) = Some (i, t) →
  Task.acceptedBid t = Some b0 →
  let w' := (accept task bid now_id now_created w).2 in
  (∀ u, CurrentUser.role u = "student" → CurrentUser.id u = Task.studentId t →
        TaskCard_showAcceptBidUI (Some u) t = true) ∧
  (accept task bid now_id now_created w).1 = Normal () ∧
  find_task (Task.id task) (db_of w') = Some (i, set_acceptedBid (JSON_bid bid) t) ∧
  Task.acceptedBid (set_acceptedBid (JSON_bid bid) t) = Some (JSON_bid bid) ∧
  DB.payments (db_of w') =
    DB.payments (db_of w) ++ [new_payment task (JSON_bid bid) now_id now_created] ∧
  length (payments_for (Task.id task) (db_of w')) =
    S (length (payments_for (Task.id task) (db_of w))).
Proof.
  intros Hfind _ w'. subst w'. rewrite accept_result, accept_db, Hfind.
  split_and!; try done.
  - intros u Hrole Hid. unfold TaskCard_showAcceptBidUI.
    by rewrite !bool_decide_eq_true_2.
  - unfold find_task in *; simpl.
    eapply list_find_insert_same; [done|].
    simpl. by apply list_find_Some in Hfind as (_ & ? & _).
  - apply payments_for_push.
Qed.

Lemma find_task_is_Some id db : is_Some (find_task id db) ↔ id ∈ task_ids db.
Proof.
  unfold find_task, task_ids. split.
  - intros [[i t] (Hi & Hid & _)%list_find_Some].
    apply list_elem_of_fmap. exists t. split; [done|].
    by eapply list_elem_of_lookup_2.
  - intros (t & -> & Ht)%list_elem_of_fmap.
    by eapply (list_find_elem_of (λ x, Task.id x = Task.id t)).
Qed.

Lemma next_db_keeps_task db ev id :
  is_Some (find_task id db) → is_Some (find_task id (next_db Number db ev)).
Proof.
  rewrite !find_task_is_Some, next_db_task_ids, elem_of_app. auto.
Qed.

Lemma filter_insert_length {A} (P : A → Prop) `{∀ x, Decision (P x)}
    (l : list A) i x y :
  l !! i = Some x → (P x ↔ P y) →
  length (filter P (<[i := y]> l)) = length (filter P l).
Proof.
  intros Hi Hxy. revert i Hi.
  induction l as [|z l IH]; intros [|i] Hi; try discriminate; simpl in *.
  - injection Hi as ->. rewrite !filter_cons.
    destruct (decide (P y)), (decide (P x)); tauto.
  - rewrite !filter_cons. destruct (decide (P z)); simpl; by rewrite (IH i).
Qed.

Lemma accepts_on_cons id ev evs :
  accepts_on id (ev :: evs) = accepts_on id [ev] + accepts_on id evs.
Proof.
  unfold accepts_on. rewrite !filter_cons, filter_nil.
  by destruct (decide _).
Qed.

(** One event: only [accept] on the id adds a payment of the task. *)
Lemma next_db_payments_for db ev id :
  is_Some (find_task id db) →
  length (payments_for id (next_db Number db ev)) =
  length (payments_for id db) + accepts_on id [ev].
Proof.
  intros Hfind. unfold accepts_on. rewrite filter_cons, filter_nil.
  destruct ev as [|name email password role now|email password
    |user form now|user task amount message now_id now_created
    |task bid now_id now_created|payment now]; simpl;
    rewrite ?decide_False by (simpl; tauto); simpl; rewrite ?Nat.add_0_r; try done.
  - by destruct (list_find _ _).
  - destruct user as [u|]; [|done]. by destruct (decide _).
  - by destruct user.
  - destruct (decide (Task.id task = id)) as [<-|Hne]; simpl.
    + destruct Hfind as [[i t] ->]. rewrite payments_for_push. lia.
    + destruct (find_task (Task.id task) db) as [[i t]|]; [|lia].
      unfold payments_for; simpl. rewrite filter_app, length_app.
      rewrite filter_cons_False by done. rewrite filter_nil. simpl. lia.
  - destruct (find_payment _ _) as [[i p0]|] eqn:Hp; [|done].
    apply find_payment_lookup in Hp as [Hi _].
    unfold payments_for; simpl. by eapply filter_insert_length.
Qed.

(** C1, as the code has it. Every [accept] on a task of the store pushes one
    payment with the id of the task, whatever was accepted before, and
    nothing else adds or removes one: over any run of events the task gains
    as many payments as the run has invocations of [accept] on its id. *)
Theorem accept_pushes_one_payment_per_call (w : World) (id : string)
    (evs : list Event) :
  is_Some (find_task id (db_of w)) →
  length (payments_for id (db_of (run Number evs w))) =
  length (payments_for id (db_of w)) + accepts_on id evs.
Proof.
  rewrite run_db. generalize (db_of w) as db.
  induction evs as [|ev evs IH]; intros db Hfind.
  - simpl. unfold accepts_on. rewrite filter_nil. simpl. lia.
  - cbn [foldl]. rewrite IH by (by apply next_db_keeps_task).
    rewrite next_db_payments_for by done.
    rewrite (accepts_on_cons id ev evs). lia.
Qed.

(** ** Bids *)


Lemma js_negative_cases f :
  js_negative f = true → (∃ m e, f = S754_finite true m e) ∨ f = S754_infinity true.
Proof.
  unfold js_negative, SFltb, SFcompare.
  destruct f as [[]|[]| |[] m e]; simpl; try discriminate; eauto.
Qed.

(** C5, as the code has it. [submitBid] does not look at the sign of the
    amount: with a negative amount it returns normally and pushes the bid,
    whose amount is the negative number itself unless that is [-Infinity],
    which JSON holds as [null]. *)
Theorem submitBid_accepts_negative_amount (u : CurrentUser.t) (task : Task.t)
    (amount message : string) (now_id now_created : Z) (w : World) :
  js_negative (Number amount) = true →
  let w' := (submitBid Number (Some u) task amount message now_id now_created w).2 in
  (submitBid Number (Some u) task amount message now_id now_created w).1 = Normal () ∧
  (∃ stored,
     DB.bids (db_of w') =
       DB.bids (db_of w) ++
         [Bid.mk ("b_" +:+ pretty now_id) (Task.id task) (CurrentUser.id u)
            (CurrentUser.name u) stored message now_created] ∧
     (Number amount ≠ S754_infinity true → stored = JNumber (Number amount)) ∧
     (Number amount = S754_infinity true → stored = JNull)).
Proof.
  intros Hneg w'. subst w'. split; [by rewrite submitBid_eq|].
  exists (JSON_amount (JNumber (Number amount))). split_and!.
  - change (submitBid Number (Some u) task amount message now_id now_created w).2
      with (step Number w (SubmitBid (Some u) task amount message now_id now_created)).
    by rewrite step_db.
  - intros Hfin. destruct (js_negative_cases _ Hneg) as [(m & e & ->)|?]; done.
  - by intros ->.
Qed.

(** ** Payments *)

(** Payments stay where they are in the array, and only [pay] writes to one. *)
Lemma next_db_payment db ev i p :
  DB.payments db !! i = Some p →
  ∃ p', DB.payments (next_db Number db ev) !! i = Some p' ∧
        Payment.id p' = Payment.id p ∧
        Payment.taskId p' = Payment.taskId p ∧
        Payment.amount p' = Payment.amount p ∧
        Payment.createdAt p' = Payment.createdAt p ∧
        (Payment.studentPaid p = true → Payment.studentPaid p' = true).
Proof.
  intros Hi.
  destruct ev as [|name email password role now|email password
    |user form now|user task amount message now_id now_created
    |task bid now_id now_created|payment now]; simpl; eauto 10.
  - destruct (list_find _ _); eauto 10.
  - destruct user as [u|]; [destruct (decide _)|]; eauto 10.
  - destruct user as [u|]; eauto 10.
  - destruct (find_task _ _) as [[j t]|]; simpl; [|eauto 10].
    exists p. split_and!; try done. by apply lookup_app_l_Some.
  - destruct (find_payment _ _) as [[j p0]|] eqn:Hfind; simpl; [|eauto 10].
    apply find_payment_lookup in Hfind as [Hj _].
    destruct (decide (i = j)) as [->|Hne].
    + exists (set_paid now p0). rewrite list_lookup_insert_eq by (by eapply lookup_lt_Some).
      assert (p0 = p) as -> by congruence. done.
    + exists p. rewrite list_lookup_insert_ne by done. done.
Qed.

Lemma foldl_payment evs db i p :
  DB.payments db !! i = Some p →
  ∃ p', DB.payments (foldl (next_db Number) db evs) !! i = Some p' ∧
        Payment.id p' = Payment.id p ∧
        Payment.taskId p' = Payment.taskId p ∧
        Payment.amount p' = Payment.amount p ∧
        Payment.createdAt p' = Payment.createdAt p ∧
        (Payment.studentPaid p = true → Payment.studentPaid p' = true).
Proof.
  revert db p. induction evs as [|ev evs IH]; intros db p Hi; cbn [foldl].
  - eauto 10.
  - destruct (next_db_payment db ev i p Hi) as (p1 & H1 & Hid & Htask & Ham & Hcr & Hpaid).
    destruct (IH _ _ H1) as (p2 & H2 & Hid2 & Htask2 & Ham2 & Hcr2 & Hpaid2).
    exists p2. split_and!; [done|congruence..|auto].
Qed.

(** C6. A payment that is paid stays paid, at its place in the array and
    under its id, through every run of events; and [pay] on the id of a
    stored payment returns normally, having set [studentPaid] to [true] and
    [paidAt] to the clock reading on the first payment with that id. *)
Theorem paid_stays_paid :
  (∀ (evs : list Event) (w : World) (i : nat) (p : Payment.t),
     DB.payments (db_of w) !! i = Some p →
     Payment.studentPaid p = true →
     ∃ p', DB.payments (db_of (run Number evs w)) !! i = Some p' ∧
           Payment.id p' = Payment.id p ∧
           Payment.studentPaid p' = true) ∧
  (∀ (payment : Payment.t) (now : Z) (prev : list Payment.t) (w : World)
     (i : nat) (p0 : Payment.t),
     find_payment (Payment.id payment) (db_of w) = Some (i, p0) →
     let w' := (pay payment now prev w).2 in
     (∃ next, (pay payment now prev w).1 = Normal next) ∧
     DB.payments (db_of w') = <[i := set_paid now p0]> (DB.payments (db_of w)) ∧
     find_payment (Payment.id payment) (db_of w') = Some (i, set_paid now p0) ∧
     Payment.studentPaid (set_paid now p0) = true ∧
     Payment.paidAt (set_paid now p0) = Some now).
Proof.
  split.
  - intros evs w i p Hi Hpaid. rewrite run_db.
    destruct (foldl_payment evs _ i p Hi) as (p' & H' & Hid & _ & _ & _ & Hp).
    eauto.
  - intros payment now prev w i p0 Hfind w'. subst w'.
    rewrite pay_db, pay_eq, Hfind. simpl.
    split_and!; [eauto|done| |done..].
    unfold find_payment in *; simpl.
    eapply list_find_insert_same; [done|].
    simpl. by apply list_find_Some in Hfind as (_ & ? & _).
Qed.

(** C7, as the code has it. [PaymentsPage] renders no Pay button for a
    payment that is paid, and [pay] itself, called on a payment that is
    already paid, does not fail: it returns normally, the payment keeps its
    id, task, amount and creation time and stays paid, and [paidAt] is
    overwritten with the new clock reading. *)
Theorem pay_again_overwrites_paidAt (payment : Payment.t) (now : Z)
    (prev : list Payment.t) (w : World) (i : nat) (p0 : Payment.t) :
  find_payment (Payment.id payment) (db_of w) = Some (i, p0) →
  Payment.studentPaid p0 = true →
  let w' := (pay payment now prev w).2 in
  (∀ user, PaymentsPage_showPay user p0 = false) ∧
  (∃ next, (pay payment now prev w).1 = Normal next) ∧
  DB.payments (db_of w') =
    <[i := Payment.mk (Payment.id p0) (Payment.taskId p0) (Payment.amount p0) true
             (Payment.createdAt p0) (Some now)]> (DB.payments (db_of w)) ∧
  DB.tasks (db_of w') = DB.tasks (db_of w) ∧
  DB.bids (db_of w') = DB.bids (db_of w).
Proof.
  intros Hfind Hpaid w'. subst w'. rewrite pay_db, pay_eq, Hfind. simpl.
  split_and!; eauto.
  intros user. unfold PaymentsPage_showPay. by rewrite Hpaid.
Qed.

Lemma seeded_seeded w : seeded (seeded w) = seeded w.
Proof. reflexivity. Qed.

Lemma filterM_pure {A} (f : A → Js bool) (g : A → bool) (l : list A) w :
  (∀ x, f x w = (Normal (g x), w)) →
  filterM f l w = (Normal (filter (λ x, g x = true) l), w).
Proof.
  intros Hf. induction l as [|x l IH]; [done|].
  cbn [filterM]. unfold mbind, Js_bind in *. rewrite Hf, IH. simpl.
  destruct (g x) eqn:Hg.
  - by rewrite filter_cons_True.
  - rewrite filter_cons_False; [done|]. by rewrite Hg.
Qed.

Lemma PaymentsPage_payments_eq u w :
  PaymentsPage_payments (Some u) w =
  (Normal (filter (λ p, visible_to u (db_of w) p = true) (DB.payments (db_of w))),
   seeded w).
Proof.
  unfold PaymentsPage_payments. rewrite bind_getDB.
  rewrite (filterM_pure _ (visible_to u (db_of w))); [done|].
  intros p. rewrite bind_getDB, seeded_seeded, db_of_seeded.
  unfold visible_to, find_task. by destruct (list_find _ _) as [[i t]|].
Qed.

Lemma next_db_payment_origin db ev p' :
  p' ∈ DB.payments (next_db Number db ev) →
  (∃ p, p ∈ DB.payments db ∧ Payment.taskId p' = Payment.taskId p) ∨
  Payment.taskId p' ∈ task_ids db.
Proof.
  destruct ev as [|name email password role now|email password
    |user form now|user task amount message now_id now_created
    |task bid now_id now_created|payment now]; simpl; eauto.
  - destruct (list_find _ _); eauto.
  - destruct user as [u|]; [destruct (decide _)|]; eauto.
  - destruct user as [u|]; eauto.
  - destruct (find_task _ _) as [[j t]|] eqn:Hfind; simpl; [|eauto].
    intros [?| ->%list_elem_of_singleton]%elem_of_app; [eauto|].
    right. simpl. apply find_task_is_Some. by rewrite Hfind.
  - destruct (find_payment _ _) as [[j p0]|] eqn:Hfind; simpl; [|eauto].
    apply find_payment_lookup in Hfind as [Hj _].
    intros [k Hk]%list_elem_of_lookup. left.
    apply list_lookup_insert_Some in Hk as [(-> & <- & _)|[_ Hk]].
    + exists p0. split; [by eapply list_elem_of_lookup_2|done].
    + exists p'. split; [by eapply list_elem_of_lookup_2|done].
Qed.

Lemma next_db_resolve db ev :
  payments_resolve db → payments_resolve (next_db Number db ev).
Proof.
  intros Hdb p' Hp'. rewrite next_db_task_ids, elem_of_app. left.
  destruct (next_db_payment_origin _ _ _ Hp') as [(p & Hp & ->)|?]; auto.
Qed.

Lemma foldl_resolve evs db :
  payments_resolve db → payments_resolve (foldl (next_db Number) db evs).
Proof.
  revert db. induction evs as [|ev evs IH]; intros db Hdb; cbn [foldl]; [done|].
  by apply IH, next_db_resolve.
Qed.

(** No run from the empty storage leaves a payment without its task. *)
Lemma run_resolve evs : payments_resolve (db_of (run Number evs initial_world)).
Proof. rewrite run_db. apply foldl_resolve. intros p Hp. by apply elem_of_nil in Hp. Qed.

Lemma filter_all {A} (P : A → Prop) `{∀ x, Decision (P x)} (l : list A) :
  (∀ x, x ∈ l → P x) → filter P l = l.
Proof.
  induction l as [|x l IH]; intros Hl; [done|].
  rewrite filter_cons_True by (apply Hl; left).
  f_equal. apply IH. intros y Hy. apply Hl. by right.
Qed.

(** C8. In every world a run from the empty storage reaches, the payments
    [PaymentsPage] starts with are, for a student, the payments whose task
    (the one the task id finds) has [studentId] equal to the id of the
    student, and for a tutor all the payments of the store, in the order of
    the store. *)
Theorem PaymentsPage_lists_own_or_all (evs : list Event) (u : CurrentUser.t) :
  let w := run Number evs initial_world in
  (CurrentUser.role u = "student" →
   (PaymentsPage_payments (Some u) w).1 =
     Normal (filter (λ p, task_owner (db_of w) p = Some (CurrentUser.id u))
               (DB.payments (db_of w)))) ∧
  (CurrentUser.role u = "tutor" →
   (PaymentsPage_payments (Some u) w).1 = Normal (DB.payments (db_of w))).
Proof.
  intros w. subst w. rewrite PaymentsPage_payments_eq. simpl. split; intros Hrole.
  - f_equal. apply list_filter_iff. intros p.
    unfold visible_to, task_owner.
    destruct (find_task _ _) as [[i t]|]; simpl; [|done].
    rewrite decide_True by done.
    rewrite bool_decide_eq_true. split; [by intros ->|by intros [= ->]].
  - f_equal. apply filter_all. intros p Hp.
    apply (run_resolve evs), find_task_is_Some in Hp as [[i t] Hfind].
    unfold visible_to. rewrite Hfind.
    rewrite decide_False; [done|]. by rewrite Hrole.
Qed.

(** C10. Whoever is logged in, a payment whose task id finds no task of the
    store is not among the payments [PaymentsPage] starts with. *)
Theorem dangling_payment_is_not_listed (u : CurrentUser.t) (w : World) (p : Payment.t) :
  find_task (Payment.taskId p) (db_of w) = None →
  ∃ l, (PaymentsPage_payments (Some u) w).1 = Normal l ∧ p ∉ l.
Proof.
  intros Hfind. rewrite PaymentsPage_payments_eq. simpl.
  eexists; split; [done|].
  intros [Hvis _]%list_elem_of_filter. unfold visible_to in Hvis.
  by rewrite Hfind in Hvis.
Qed.

(** * Further properties of the handlers *)

(** ** Storage *)

(** X1. Reading an empty storage gives the empty database and writes it;
    reading again gives the same and changes nothing more; what is saved from
    a read is read back as it was; and reading then saving back does not
    change what is read. *)
Theorem storage_round_trip :
  (∀ al, getDB (mkWorld None al) =
           (Normal (DB.mk [] [] [] []),
            mkWorld (Some (JSON_stringify (DB.mk [] [] [] []))) al)) ∧
  (∀ w, getDB (getDB w).2 = getDB w) ∧
  (∀ w0 w, (getDB (saveDB (db_of w0) w).2).1 = Normal (db_of w0)) ∧
  (∀ db w, (getDB (saveDB db w).2).1 = Normal (JSON_db db) ∧
           (getDB (saveDB (JSON_db db) w).2).1 = Normal (JSON_db db)) ∧
  (∀ w, db_of ((db ← getDB; saveDB db) w).2 = db_of w).
Proof.
  split_and!.
  - done.
  - intros w. rewrite !getDB_eq. simpl. by rewrite db_of_seeded.
  - intros w0 w. rewrite getDB_eq. simpl. unfold db_of at 1; simpl.
    by rewrite db_of_JSON.
  - intros db w. rewrite !getDB_eq. simpl. unfold db_of; simpl.
    by rewrite JSON_db_idemp.
  - intros w. rewrite bind_getDB. unfold db_of at 1; simpl. apply db_of_JSON.
Qed.

(** ** Registration and login *)

Lemma register_eq name email password role now w :
  register name email password role now w =
  match list_find (λ u, User.email u = email) (DB.users (db_of w)) with
  | Some _ => (Throw (Error "Email already in use"), seeded w)
  | None =>
      (Normal (User.mk ("u_" +:+ pretty now) name email password role),
       mkWorld
         (Some (JSON_stringify
            (with_users
               (DB.users (db_of w) ++
                  [User.mk ("u_" +:+ pretty now) name email password role])
               (db_of w))))
         (alerts w))
  end.
Proof.
  unfold register. rewrite bind_getDB.
  destruct (list_find _ _) as [[i u]|]; reflexivity.
Qed.

Lemma login_eq email password w :
  login email password w =
  match list_find (λ u, User.email u = email ∧ User.password u = password)
          (DB.users (db_of w)) with
  | None => (Throw (Error "Invalid credentials"), seeded w)
  | Some (_, found) => (Normal found, seeded w)
  end.
Proof.
  unfold login. rewrite bind_getDB.
  destruct (list_find _ _) as [[i u]|]; reflexivity.
Qed.

Lemma email_in_use email db :
  email ∈ user_emails db ↔
  is_Some (list_find (λ u, User.email u = email) (DB.users db)).
Proof.
  unfold user_emails. split.
  - intros (u & -> & Hu)%list_elem_of_fmap.
    by eapply (list_find_elem_of (λ x, User.email x = User.email u)).
  - intros [[i u] (Hi & Hu & _)%list_find_Some].
    apply list_elem_of_fmap. exists u. split; [done|].
    by eapply list_elem_of_lookup_2.
Qed.

Lemma register_db name email password role now w :
  db_of (register name email password role now w).2 =
  match list_find (λ u, User.email u = email) (DB.users (db_of w)) with
  | Some _ => db_of w
  | None =>
      with_users
        (DB.users (db_of w) ++ [User.mk ("u_" +:+ pretty now) name email password role])
        (db_of w)
  end.
Proof.
  rewrite register_eq.
  destruct (list_find _ _) as [[? ?]|]; simpl; [apply db_of_seeded|].
  rewrite db_of_saved. unfold JSON_db; simpl.
  by rewrite tasks_JSON, bids_JSON, payments_JSON.
Qed.

(** X2. [register] with an email that a stored user has throws
    "Email already in use" and leaves the database as it was; with a new
    email it returns the new user, whose id is ["u_" + now], and pushes it
    onto [db.users], the other arrays staying as they were. *)
Theorem register_checks_email (name email password role : string) (now : Z) (w : World) :
  let r := register name email password role now w in
  let newUser := User.mk ("u_" +:+ pretty now) name email password role in
  (email ∈ user_emails (db_of w) →
   r.1 = Throw (Error "Email already in use") ∧ db_of r.2 = db_of w) ∧
  (email ∉ user_emails (db_of w) →
   r.1 = Normal newUser ∧
   db_of r.2 =
     DB.mk (DB.users (db_of w) ++ [newUser]) (DB.tasks (db_of w))
       (DB.bids (db_of w)) (DB.payments (db_of w))).
Proof.
  intros r newUser. subst r newUser. rewrite !email_in_use, register_db.
  rewrite register_eq. simpl.
  destruct (list_find _ _) as [[i u]|]; split; intros H;
    first [done | by destruct H | by (contradict H; eexists)].
Qed.


(** The arrays of users and bids only grow at the end, the tasks keep their
    ids and the payments theirs. *)
Lemma next_db_prefix db ev :
  DB.users db `prefix_of` DB.users (next_db Number db ev) ∧
  DB.bids db `prefix_of` DB.bids (next_db Number db ev) ∧
  task_ids db `prefix_of` task_ids (next_db Number db ev) ∧
  (Payment.id <$> DB.payments db) `prefix_of`
    (Payment.id <$> DB.payments (next_db Number db ev)).
Proof.
  split_and!.
  - destruct ev; simpl; try done.
    + destruct (list_find _ _); [done|]. by apply prefix_app_r.
    + destruct user as [u|]; [destruct (decide _)|]; done.
    + by destruct user.
    + by destruct (find_task _ _) as [[? ?]|].
    + by destruct (find_payment _ _) as [[? ?]|].
  - destruct ev; simpl; try done.
    + by destruct (list_find _ _).
    + destruct user as [u|]; [destruct (decide _)|]; done.
    + destruct user; [|done]. by apply prefix_app_r.
    + by destruct (find_task _ _) as [[? ?]|].
    + by destruct (find_payment _ _) as [[? ?]|].
  - rewrite next_db_task_ids. by apply prefix_app_r.
  - destruct ev; simpl; try done.
    + by destruct (list_find _ _).
    + destruct user as [u|]; [destruct (decide _)|]; done.
    + by destruct user.
    + destruct (find_task _ _) as [[? ?]|]; [|done]. simpl.
      rewrite fmap_app. by apply prefix_app_r.
    + destruct (find_payment _ _) as [[i p0]|] eqn:Hfind; [|done]. simpl.
      apply find_payment_lookup in Hfind as [Hi _].
      rewrite list_fmap_insert, list_insert_id; [done|].
      by rewrite list_lookup_fmap, Hi.
Qed.

Lemma foldl_prefix evs db :
  DB.users db `prefix_of` DB.users (foldl (next_db Number) db evs) ∧
  DB.bids db `prefix_of` DB.bids (foldl (next_db Number) db evs) ∧
  task_ids db `prefix_of` task_ids (foldl (next_db Number) db evs) ∧
  (Payment.id <$> DB.payments db) `prefix_of`
    (Payment.id <$> DB.payments (foldl (next_db Number) db evs)).
Proof.
  revert db. induction evs as [|ev evs IH]; intros db; cbn [foldl]; [done|].
  destruct (next_db_prefix db ev) as (H1 & H2 & H3 & H4).
  destruct (IH (next_db Number db ev)) as (I1 & I2 & I3 & I4).
  split_and!; etrans; done.
Qed.

(** X4. Who has registered can log in: after a [register] that returned, and
    whatever happens next, [login] with the same email and password returns
    the user that [register] returned. *)
Theorem login_after_register (name email password role : string) (now : Z)
    (w : World) (evs : list Event) (u : User.t) :
  (register name email password role now w).1 = Normal u →
  (login email password
     (run Number evs (register name email password role now w).2)).1 = Normal u.
Proof.
  intros Hreg. rewrite login_eq, run_db, register_db.
  rewrite register_eq in Hreg. simpl.
  destruct (list_find (λ u, User.email u = email) (DB.users (db_of w)))
    as [[i v]|] eqn:Hnone; [done|].
  simpl in Hreg. injection Hreg as <-.
  destruct (foldl_prefix evs
    (with_users
       (DB.users (db_of w) ++ [User.mk ("u_" +:+ pretty now) name email password role])
       (db_of w))) as ([k Hk] & _).
  simpl in Hk. rewrite Hk.
  erewrite list_find_app_l; [done|].
  apply list_find_Some. split; [|split].
  - apply list_lookup_middle. done.
  - done.
  - intros j y Hj Hlt. rewrite lookup_app_l in Hj by done.
    apply list_find_None in Hnone. intros [He _].
    eapply Forall_lookup_1 in Hnone; [|done]. done.
Qed.

Lemma next_db_emails db ev :
  NoDup (user_emails db) → NoDup (user_emails (next_db Number db ev)).
Proof.
  intros Hdb. destruct ev; simpl; try done.
  - destruct (list_find _ _) as [[i u]|] eqn:Hfind; [done|].
    unfold user_emails; simpl. rewrite fmap_app. simpl.
    apply NoDup_app. split_and!; [done| |apply NoDup_singleton].
    intros x Hx ->%list_elem_of_singleton.
    apply email_in_use in Hx as [? Hx]. congruence.
  - destruct user as [u|]; [destruct (decide _)|]; done.
  - by destruct user.
  - by destruct (find_task _ _) as [[? ?]|].
  - by destruct (find_payment _ _) as [[? ?]|].
Qed.

(** X5. No two users share an email: if the emails of [db.users] are pairwise
    distinct, they stay so through every run of events. *)
Theorem emails_stay_unique (evs : list Event) (w : World) :
  NoDup (user_emails (db_of w)) →
  NoDup (user_emails (db_of (run Number evs w))).
Proof.
  rewrite run_db. generalize (db_of w) as db.
  induction evs as [|ev evs IH]; intros db Hdb; cbn [foldl]; [done|].
  by apply IH, next_db_emails.
Qed.

(** X6. [handleSubmit] of the login page never throws: it navigates, with
    the session of the user that [register] created or [login] found, or it
    shows the error caught, which is "Email already in use" in register mode
    and "Invalid credentials" otherwise, and then the database is as it
    was. *)
Theorem handleSubmit_catches (mode : string) (form : LoginForm.t) (now : Z) (w : World) :
  let w' := (handleSubmit mode form now w).2 in
  ∃ o, (handleSubmit mode form now w).1 = Normal o ∧
    match o with
    | Navigated user =>
        if decide (mode = "register")
        then (user = CurrentUser.mk ("u_" +:+ pretty now) (LoginForm.name form)
                       (LoginForm.email form) (LoginForm.role form) ∧
              (LoginForm.email form ∉ user_emails (db_of w)) ∧
              user_emails (db_of w') = user_emails (db_of w) ++ [LoginForm.email form])
        else ((∃ u, u ∈ DB.users (db_of w) ∧ user = session_of u ∧
                    User.email u = LoginForm.email form ∧
                    User.password u = LoginForm.password form) ∧
              db_of w' = db_of w)
    | ShowsError error =>
        db_of w' = db_of w ∧
        error = if decide (mode = "register")
                then Error "Email already in use"
                else Error "Invalid credentials"
    end.
Proof.
  intros w'. subst w'. unfold handleSubmit, try_catch, mbind, Js_bind.
  destruct (decide (mode = "register")) as [Hm|Hm].
  - pose proof (register_db (LoginForm.name form) (LoginForm.email form)
      (LoginForm.password form) (LoginForm.role form) now w) as Hdb.
    rewrite register_eq in *. simpl in Hdb.
    destruct (list_find _ _) as [[i u]|] eqn:Hfind; simpl in *.
    + eexists; split; [done|]. simpl. split; [apply db_of_seeded|done].
    + eexists; split; [done|]. simpl. split_and!; [done| |].
      * rewrite email_in_use, Hfind. by intros [? ?].
      * rewrite Hdb. unfold user_emails; simpl. by rewrite fmap_app.
  - rewrite login_eq.
    destruct (list_find _ _) as [[i u]|] eqn:Hfind; simpl.
    + eexists; split; [done|]. simpl. split; [|apply db_of_seeded].
      apply list_find_Some in Hfind as (Hi & [? ?] & _).
      exists u. split_and!; try done. by eapply list_elem_of_lookup_2.
    + eexists; split; [done|]. simpl. split; [apply db_of_seeded|done].
Qed.

(** ** Posting and listing tasks *)

Lemma submit_db user form now w :
  db_of (submit user form now w).2 =
  match user with
  | None => db_of w
  | Some u =>
      if decide (CurrentUser.role u = "student")
      then
        with_tasks
          (DB.tasks (db_of w) ++
             [Task.mk ("t_" +:+ pretty now) (TaskForm.title form)
                (TaskForm.description form) (CurrentUser.id u)
                (CurrentUser.name u) (TaskForm.dueDate form)
                (TaskForm.budget form) None]) (db_of w)
      else db_of w
  end.
Proof.
  rewrite submit_eq. destruct user as [u|]; [|done].
  destruct (decide _); [|done]. simpl. rewrite db_of_saved.
  unfold JSON_db; simpl.
  by rewrite fmap_app, tasks_JSON, bids_JSON, payments_JSON.
Qed.

(** X7. [submit] posts for a student only. For a student it pushes a task
    with the id ["t_" + now], owned by the student and without an accepted
    bid, leaves users, bids and payments as they were and alerts
    "Task posted"; without a user, or for a user of another role, it only
    alerts, and the storage is not even read. *)
Theorem submit_posts_for_students_only :
  (∀ (u : CurrentUser.t) (form : TaskForm.t) (now : Z) (w : World),
     CurrentUser.role u = "student" →
     (submit (Some u) form now w).1 = Normal () ∧
     db_of (submit (Some u) form now w).2 =
       DB.mk (DB.users (db_of w))
         (DB.tasks (db_of w) ++
            [Task.mk ("t_" +:+ pretty now) (TaskForm.title form)
               (TaskForm.description form) (CurrentUser.id u) (CurrentUser.name u)
               (TaskForm.dueDate form) (TaskForm.budget form) None])
         (DB.bids (db_of w)) (DB.payments (db_of w)) ∧
     alerts (submit (Some u) form now w).2 = alerts w ++ ["Task posted"]) ∧
  (∀ (user : option CurrentUser.t) (form : TaskForm.t) (now : Z) (w : World),
     (∀ u, user = Some u → CurrentUser.role u ≠ "student") →
     submit user form now w =
       (Normal (),
        mkWorld (localStorage w)
          (alerts w ++ ["Please login as a student to post tasks"]))).
Proof.
  split.
  - intros u form now w Hrole. rewrite submit_db, submit_eq. simpl.
    by rewrite !decide_True.
  - intros user form now w Hno. rewrite submit_eq.
    destruct user as [u|]; [|done]. rewrite decide_False; [done|]. by apply Hno.
Qed.


(** X9. For a logged-in user, [MyTasks] lists the tasks of the store whose
    [studentId] is the id of the user, in the order of the store, and its
    effect sets the same list; a task posted by a student goes to the end of
    the list of that student and into nobody else's. Without a user the
    effect throws as soon as the store has a task. *)
Theorem MyTasks_lists_own_tasks :
  (∀ (u v : CurrentUser.t) (form : TaskForm.t) (now : Z) (w : World),
     CurrentUser.role v = "student" →
     ∃ l,
       (MyTasks_tasks (Some u) w).1 = Normal l ∧
       (MyTasks_effect (Some u) w).1 = Normal l ∧
       (∀ t, t ∈ l ↔ t ∈ DB.tasks (db_of w) ∧ Task.studentId t = CurrentUser.id u) ∧
       (MyTasks_tasks (Some u) (submit (Some v) form now w).2).1 =
         Normal (l ++
                 if decide (CurrentUser.id v = CurrentUser.id u)
                 then [Task.mk ("t_" +:+ pretty now) (TaskForm.title form)
                         (TaskForm.description form) (CurrentUser.id v)
                         (CurrentUser.name v) (TaskForm.dueDate form)
                         (TaskForm.budget form) None]
                 else [])) ∧
  (∀ w : World,
     DB.tasks (db_of w) ≠ [] → (MyTasks_effect None w).1 = Throw TypeError).
Proof.
  split.
  - intros u v form now w Hrole. unfold MyTasks_tasks, MyTasks_effect.
    rewrite !bind_getDB, submit_db. rewrite decide_True by done.
    simpl. eexists; split_and!; [done..| |].
    + intros t. rewrite list_elem_of_filter. tauto.
    + rewrite filter_app.
      destruct (decide (CurrentUser.id v = CurrentUser.id u)) as [Heq|Hne].
      * by rewrite filter_cons_True.
      * by rewrite filter_cons_False.
  - intros w Hne. unfold MyTasks_effect. rewrite bind_getDB.
    by destruct (DB.tasks (db_of w)).
Qed.

(** ** Bids on a task card *)

Lemma submitBid_db user task amount message now_id now_created w :
  db_of (submitBid Number user task amount message now_id now_created w).2 =
  next_db Number (db_of w) (SubmitBid user task amount message now_id now_created).
Proof. by rewrite <- step_db. Qed.

(** X10. A task card lists the bids whose [taskId] is the id of its task, in
    the order of submission: a bid just submitted goes to the end of the list
    of the cards with that task id and into no other list. *)
Theorem TaskCard_bids_in_submission_order (u : CurrentUser.t) (task card : Task.t)
    (amount message : string) (now_id now_created : Z) (w : World) :
  ∃ l,
    (bids_of_task card w).1 = Normal l ∧
    (∀ b, b ∈ l ↔ b ∈ DB.bids (db_of w) ∧ Bid.taskId b = Task.id card) ∧
    (bids_of_task card
       (submitBid Number (Some u) task amount message now_id now_created w).2).1 =
      Normal (l ++
              if decide (Task.id task = Task.id card)
              then [Bid.mk ("b_" +:+ pretty now_id) (Task.id task) (CurrentUser.id u)
                      (CurrentUser.name u) (JSON_amount (JNumber (Number amount)))
                      message now_created]
              else []).
Proof.
  unfold bids_of_task. rewrite !bind_getDB, submitBid_db. simpl.
  eexists; split_and!; [done| |].
  - intros b. rewrite list_elem_of_filter. tauto.
  - rewrite filter_app.
    destruct (decide (Task.id task = Task.id card)) as [Heq|Hne].
    + by rewrite filter_cons_True.
    + by rewrite filter_cons_False.
Qed.

(** X11. [submitBid] does not look the task up: for a task whose id is not
    in the store it still returns normally and stores the bid, leaving users,
    tasks and payments as they were, and no card of a task of the store
    lists that bid. *)
Theorem submitBid_ignores_missing_task (u : CurrentUser.t) (task : Task.t)
    (amount message : string) (now_id now_created : Z) (w : World) :
  find_task (Task.id task) (db_of w) = None →
  let w' := (submitBid Number (Some u) task amount message now_id now_created w).2 in
  let bid := Bid.mk ("b_" +:+ pretty now_id) (Task.id task) (CurrentUser.id u)
               (CurrentUser.name u) (JSON_amount (JNumber (Number amount)))
               message now_created in
  (submitBid Number (Some u) task amount message now_id now_created w).1 = Normal () ∧
  DB.bids (db_of w') = DB.bids (db_of w) ++ [bid] ∧
  DB.users (db_of w') = DB.users (db_of w) ∧
  DB.tasks (db_of w') = DB.tasks (db_of w) ∧
  DB.payments (db_of w') = DB.payments (db_of w) ∧
  ∀ card l, card ∈ DB.tasks (db_of w') → (bids_of_task card w').1 = Normal l → bid ∉ l.
Proof.
  intros Hnone w' bid. subst w' bid.
  split_and!; try (by rewrite submitBid_db); [by rewrite submitBid_eq|].
  intros card l Hcard. unfold bids_of_task. rewrite bind_getDB.
  rewrite submitBid_db in *. simpl in *.
  intros [= <-]. rewrite list_elem_of_filter. simpl. intros [Hid _].
  apply list_find_None in Hnone. eapply Forall_forall in Hnone; [|done].
  by apply Hnone.
Qed.

(** X12. The controls of a task card and of the payments page: no user is
    offered both the bid form and the accept control; the accept control is
    offered exactly to the student who owns the task; the Pay button exactly
    to a student on a payment that is not paid. *)
Theorem controls_by_role (user : option CurrentUser.t) (task : Task.t) (p : Payment.t) :
  TaskCard_showBidForm user && TaskCard_showAcceptBidUI user task = false ∧
  (TaskCard_showAcceptBidUI user task = true ↔
   ∃ u, user = Some u ∧ CurrentUser.role u = "student" ∧
        CurrentUser.id u = Task.studentId task) ∧
  (∀ u, PaymentsPage_showPay u p = true ↔
        Payment.studentPaid p = false ∧ CurrentUser.role u = "student").
Proof.
  split_and!.
  - destruct user as [u|]; simpl; [|done].
    destruct (decide (CurrentUser.role u = "tutor")) as [Hr|Hr].
    + by rewrite Hr.
    + by rewrite (bool_decide_eq_false_2 _ Hr).
  - destruct user as [u|]; simpl.
    + rewrite andb_true_iff, !bool_decide_eq_true. split.
      * intros [? ?]. eauto.
      * by intros (? & [= <-] & ? & ?).
    + split; [done|]. by intros (? & ? & _).
  - intros u. unfold PaymentsPage_showPay.
    rewrite andb_true_iff, negb_true_iff, bool_decide_eq_true. done.
Qed.

(** ** The Accept button *)

(** X13. With nothing selected, or with a value that is the id of none of
    the bids listed, the Accept button only alerts "Select a bid first": the
    storage is not read and nothing is accepted. *)
Theorem AcceptBidUI_needs_selection (task : Task.t) (bids : list Bid.t)
    (selected : option string) (now_id now_created : Z) (w : World) :
  (∀ x, x ∈ bids → Some (Bid.id x) ≠ selected) →
  AcceptBidUI_onClick task bids selected now_id now_created w =
    (Normal (), mkWorld (localStorage w) (alerts w ++ ["Select a bid first"])).
Proof.
  intros Hnone. unfold AcceptBidUI_onClick.
  destruct (list_find _ _) as [[i b]|] eqn:Hfind; [|done].
  apply list_find_Some in Hfind as (Hi%list_elem_of_lookup_2 & Hsel & _).
  by destruct (Hnone b Hi).
Qed.

(** X14. The Accept button never accepts a bid of another task. With the
    bids that the card read for its task, a click either leaves tasks and
    payments as they were, or it accepts a stored bid whose [taskId] is the
    id of the task and whose id is the selected value: that bid becomes the
    accepted bid of the task and the payment pushed has its amount. *)
Theorem AcceptBidUI_accepts_bid_of_task (w0 w : World) (task : Task.t)
    (bids : list Bid.t) (selected : option string) (now_id now_created : Z) :
  (bids_of_task task w0).1 = Normal bids →
  let w' := (AcceptBidUI_onClick task bids selected now_id now_created w).2 in
  (DB.tasks (db_of w') = DB.tasks (db_of w) ∧
   DB.payments (db_of w') = DB.payments (db_of w))
  ∨ (∃ bid,
       bid ∈ DB.bids (db_of w0) ∧
       Bid.taskId bid = Task.id task ∧
       Some (Bid.id bid) = selected ∧
       accepted_bid_of (Task.id task) (db_of w') = Some bid ∧
       DB.payments (db_of w') =
         DB.payments (db_of w) ++
           [Payment.mk ("p_" +:+ pretty now_id) (Task.id task) (Bid.amount bid)
              false now_created None]).
Proof.
  intros Hbids w'. subst w'. unfold bids_of_task in Hbids.
  rewrite bind_getDB in Hbids. simpl in Hbids. injection Hbids as <-.
  unfold AcceptBidUI_onClick.
  destruct (list_find _ _) as [[j bid]|] eqn:Hsel; [|by left].
  apply list_find_Some in Hsel as (Hj%list_elem_of_lookup_2 & Hsel & _).
  apply list_elem_of_filter in Hj as [Htask Hbid].
  rewrite accept_db, (stored_bid_JSON _ _ Hbid).
  destruct (find_task _ _) as [[i t]|] eqn:Hfind; [right|by left].
  exists bid. split_and!; try done.
  unfold accepted_bid_of, find_task in *; simpl.
  erewrite list_find_insert_same; [done..|].
  simpl. by apply list_find_Some in Hfind as (_ & ? & _).
Qed.

(** ** Paying *)

Lemma find_payment_is_Some id db :
  is_Some (find_payment id db) ↔ id ∈ Payment.id <$> DB.payments db.
Proof.
  unfold find_payment. split.
  - intros [[i p] (Hi & Hid & _)%list_find_Some].
    apply list_elem_of_fmap. exists p. split; [done|].
    by eapply list_elem_of_lookup_2.
  - intros (p & -> & Hp)%list_elem_of_fmap.
    by eapply (list_find_elem_of (λ x, Payment.id x = Payment.id p)).
Qed.

(** X15. [pay] on a payment whose id no stored payment has throws a
    [TypeError]: nothing is marked paid, the database is as it was and no
    alert is shown. *)
Theorem pay_unknown_payment_throws (payment : Payment.t) (now : Z)
    (prev : list Payment.t) (w : World) :
  Payment.id payment ∉ Payment.id <$> DB.payments (db_of w) →
  (pay payment now prev w).1 = Throw TypeError ∧
  db_of (pay payment now prev w).2 = db_of w ∧
  alerts (pay payment now prev w).2 = alerts w.
Proof.
  rewrite <- find_payment_is_Some. intros Hnone. rewrite pay_db, pay_eq.
  destruct (find_payment _ _) as [[i p0]|]; [|done].
  contradict Hnone. by eexists.
Qed.

(** X16. After [pay] the list the page shows has the same length; every
    entry with the id of the payment is replaced by the stored payment, now
    paid, for which no Pay button is rendered, and every other entry is as it
    was. *)
Theorem pay_updates_view (payment : Payment.t) (now : Z) (prev : list Payment.t)
    (w : World) (i : nat) (p0 : Payment.t) :
  find_payment (Payment.id payment) (db_of w) = Some (i, p0) →
  ∃ next,
    (pay payment now prev w).1 = Normal next ∧
    length next = length prev ∧
    (∀ u, PaymentsPage_showPay u (set_paid now p0) = false) ∧
    ∀ j x, prev !! j = Some x →
      (Payment.id x = Payment.id payment → next !! j = Some (set_paid now p0)) ∧
      (Payment.id x ≠ Payment.id payment → next !! j = Some x).
Proof.
  intros Hfind. rewrite pay_eq, Hfind. simpl. eexists; split_and!; [done| |done|].
  - by rewrite length_fmap.
  - apply find_payment_lookup in Hfind as [_ Hid].
    intros j x Hj. rewrite list_lookup_fmap, Hj. simpl. rewrite Hid.
    split; intros Hx; [by rewrite decide_True|by rewrite decide_False].
Qed.

Lemma replace_by_id_insert (l : list Payment.t) i p0 p :
  NoDup (Payment.id <$> l) → l !! i = Some p0 → Payment.id p = Payment.id p0 →
  (λ x, if decide (Payment.id x = Payment.id p) then p else x) <$> l = <[i := p]> l.
Proof.
  intros Hnd Hi Hid. apply list_eq. intros j.
  rewrite list_lookup_fmap.
  destruct (decide (j = i)) as [->|Hne].
  - rewrite list_lookup_insert_eq by (by eapply lookup_lt_Some).
    rewrite Hi. simpl. by rewrite decide_True.
  - rewrite list_lookup_insert_ne by done.
    destruct (l !! j) as [x|] eqn:Hj; [|done]. simpl.
    destruct (decide (Payment.id x = Payment.id p)) as [Hx|]; [|done].
    destruct Hne. eapply (NoDup_lookup _ j i (Payment.id x) Hnd).
    + by rewrite list_lookup_fmap, Hj.
    + by rewrite list_lookup_fmap, Hi, Hx, Hid.
Qed.

Lemma filter_fmap_commute {A} (P : A → Prop) `{∀ x, Decision (P x)}
    (f : A → A) (l : list A) :
  (∀ x, x ∈ l → (P (f x) ↔ P x)) → filter P (f <$> l) = f <$> filter P l.
Proof.
  induction l as [|x l IH]; intros Hl; [done|].
  rewrite fmap_cons, !filter_cons.
  assert (P (f x) ↔ P x) as Hx by (apply Hl; left).
  rewrite IH by (intros y Hy; apply Hl; by right).
  destruct (decide (P (f x))), (decide (P x)); tauto || done.
Qed.

(** X17. A page that is up to date stays so when it pays. If the list the
    page shows is the one [PaymentsPage] computes from the storage as it is
    when [pay] runs, and the ids of the stored payments are pairwise
    distinct, then the list that [pay] leaves on the page is the list the
    page would compute afresh from the storage after the payment. (A page
    mounted before a later acceptance shows an older list, and [pay] does not
    bring it up to date.) *)
Theorem pay_view_matches_store (u : CurrentUser.t) (payment : Payment.t) (now : Z)
    (w : World) (prev : list Payment.t) :
  NoDup (Payment.id <$> DB.payments (db_of w)) →
  (PaymentsPage_payments (Some u) w).1 = Normal prev →
  Payment.id payment ∈ Payment.id <$> DB.payments (db_of w) →
  ∃ next,
    (pay payment now prev w).1 = Normal next ∧
    (PaymentsPage_payments (Some u) (pay payment now prev w).2).1 = Normal next.
Proof.
  intros Hnd. rewrite !PaymentsPage_payments_eq. simpl. intros [= <-].
  rewrite <- find_payment_is_Some. intros [[i p0] Hfind].
  rewrite pay_db, pay_eq, Hfind. simpl. eexists; split; [done|]. f_equal.
  pose proof (find_payment_lookup _ _ _ _ Hfind) as [Hi Hid].
  rewrite <- (replace_by_id_insert _ i p0 (set_paid now p0)) by done.
  rewrite filter_fmap_commute.
  - apply (f_equal (fmap _)).
    apply list_filter_iff. intros p. by unfold visible_to, find_task.
  - intros x Hx. unfold visible_to, find_task; simpl.
    destruct (decide (Payment.id x = Payment.id p0)) as [Hxid|]; [|done].
    apply list_elem_of_lookup in Hx as [j Hj].
    assert (j = i) as ->.
    { eapply (NoDup_lookup _ j i (Payment.id x) Hnd).
      - by rewrite list_lookup_fmap, Hj.
      - by rewrite list_lookup_fmap, Hi, Hxid. }
    assert (x = p0) as -> by congruence. done.
Qed.

(** ** What a run keeps *)

(** X18. The history is append-only: through every run of events the users
    and the bids of the store stay as they are at the head of their arrays,
    the tasks keep their place and their id, and so do the payments. *)
Theorem history_is_append_only (evs : list Event) (w : World) :
  DB.users (db_of w) `prefix_of` DB.users (db_of (run Number evs w)) ∧
  DB.bids (db_of w) `prefix_of` DB.bids (db_of (run Number evs w)) ∧
  task_ids (db_of w) `prefix_of` task_ids (db_of (run Number evs w)) ∧
  (Payment.id <$> DB.payments (db_of w)) `prefix_of`
    (Payment.id <$> DB.payments (db_of (run Number evs w))).
Proof. rewrite run_db. apply foldl_prefix. Qed.

Lemma list_find_insert_other {A} (P : A → Prop) `{∀ x, Decision (P x)}
    (l : list A) i x y :
  l !! i = Some x → ¬ P x → ¬ P y → list_find P (<[i := y]> l) = list_find P l.
Proof.
  intros Hi Hx Hy. revert i Hi.
  induction l as [|z l IH]; intros [|i] Hi; try discriminate; simpl in *.
  - injection Hi as ->. by rewrite !decide_False.
  - destruct (decide (P z)); [done|]. by rewrite (IH i).
Qed.

Lemma not_nil_length {A} (l : list A) : l ≠ [] ↔ length l ≠ 0.
Proof. destruct l; simpl; split; intros ?; done. Qed.

(** One event keeps: the task an id finds has an accepted bid exactly when
    the id has a payment. *)
Lemma next_db_accepted db ev :
  (∀ id, is_Some (accepted_bid_of id db) ↔ payments_for id db ≠ []) →
  ∀ id, is_Some (accepted_bid_of id (next_db Number db ev)) ↔
        payments_for id (next_db Number db ev) ≠ [].
Proof.
  intros Hdb id.
  destruct ev as [|name email password role now|email password
    |user form now|user task amount message now_id now_created
    |task bid now_id now_created|payment now]; simpl; try apply Hdb.
  - destruct (list_find _ _); apply Hdb.
  - destruct user as [u|]; [|apply Hdb]. destruct (decide _); [|apply Hdb].
    specialize (Hdb id). unfold accepted_bid_of, find_task, payments_for in *.
    simpl. destruct (list_find _ (DB.tasks db)) as [[i t]|] eqn:Hfind.
    + by erewrite list_find_app_l.
    + rewrite list_find_app_r by done. simpl in *.
      destruct (decide _); simpl; apply Hdb.
  - destruct user; apply Hdb.
  - destruct (find_task (Task.id task) db) as [[i t]|] eqn:Hfind; [|apply Hdb].
    destruct (decide (id = Task.id task)) as [->|Hne].
    + split; intros _.
      * rewrite not_nil_length, payments_for_push. lia.
      * unfold accepted_bid_of, find_task in *; simpl.
        erewrite list_find_insert_same; [by eexists|done|].
        simpl. by apply list_find_Some in Hfind as (_ & ? & _).
    + specialize (Hdb id). unfold accepted_bid_of, find_task, payments_for in *.
      simpl. apply list_find_Some in Hfind as (Hi & Hid & _).
      rewrite (list_find_insert_other _ _ i t) by (simpl; congruence).
      rewrite filter_app, filter_cons_False by (simpl; congruence).
      by rewrite filter_nil, app_nil_r.
  - destruct (find_payment _ _) as [[i p0]|] eqn:Hfind; [|apply Hdb].
    apply find_payment_lookup in Hfind as [Hi _].
    specialize (Hdb id). unfold accepted_bid_of, find_task, payments_for in *.
    simpl. rewrite Hdb, !not_nil_length.
    by rewrite (filter_insert_length _ _ i p0).
Qed.

Lemma foldl_accepted evs db :
  (∀ id, is_Some (accepted_bid_of id db) ↔ payments_for id db ≠ []) →
  ∀ id, is_Some (accepted_bid_of id (foldl (next_db Number) db evs)) ↔
        payments_for id (foldl (next_db Number) db evs) ≠ [].
Proof.
  revert db. induction evs as [|ev evs IH]; intros db Hdb; cbn [foldl]; [done|].
  by apply IH, next_db_accepted.
Qed.

(** X19. Acceptance and payment go together. In every world a run from the
    empty storage reaches, the task that a task id finds has an accepted bid
    exactly when the store has a payment with that task id; so every payment
    is on a task of the store that has an accepted bid. *)
Theorem accepted_iff_payment (evs : list Event) :
  let db := db_of (run Number evs initial_world) in
  (∀ id, is_Some (accepted_bid_of id db) ↔ payments_for id db ≠ []) ∧
  (∀ p, p ∈ DB.payments db →
        ∃ i t b, find_task (Payment.taskId p) db = Some (i, t) ∧
                 Task.acceptedBid t = Some b).
Proof.
  intros db. subst db. rewrite run_db.
  pose proof (foldl_accepted evs (db_of initial_world)) as Hinv.
  assert (∀ id, is_Some (accepted_bid_of id (db_of initial_world)) ↔
                payments_for id (db_of initial_world) ≠ []) as Hseed.
  { intros id. split; [by intros [? ?]|done]. }
  specialize (Hinv Hseed).
  split; [done|].
  intros p Hp.
  destruct (proj2 (Hinv (Payment.taskId p))) as [b Hb].
  - intros Hnil. eapply (filter_nil_not_elem_of _ _ p); [exact Hnil|done|done].
  - unfold accepted_bid_of in Hb.
    destruct (find_task _ _) as [[i t]|]; [|done]. simpl in Hb. eauto.
Qed.

(** X20. A payment is frozen when it is made: through every run of events
    it keeps its place in the array and its id, task id, amount and creation
    time; only [studentPaid] and [paidAt] are ever written. *)
Theorem payment_is_frozen (evs : list Event) (w : World) (i : nat) (p : Payment.t) :
  DB.payments (db_of w) !! i = Some p →
  ∃ p', DB.payments (db_of (run Number evs w)) !! i = Some p' ∧
        Payment.id p' = Payment.id p ∧
        Payment.taskId p' = Payment.taskId p ∧
        Payment.amount p' = Payment.amount p ∧
        Payment.createdAt p' = Payment.createdAt p.
Proof.
  intros Hi. rewrite run_db.
  destruct (foldl_payment evs _ i p Hi) as (p' & ? & ? & ? & ? & ? & _).
  exists p'. done.
Qed.

Lemma next_db_task db ev i t :
  DB.tasks db !! i = Some t →
  ∃ t', DB.tasks (next_db Number db ev) !! i = Some t' ∧
        Task.id t' = Task.id t ∧
        Task.title t' = Task.title t ∧
        Task.description t' = Task.description t ∧
        Task.studentId t' = Task.studentId t ∧
        Task.studentName t' = Task.studentName t ∧
        Task.dueDate t' = Task.dueDate t ∧
        Task.budget t' = Task.budget t ∧
        (is_Some (Task.acceptedBid t) → is_Some (Task.acceptedBid t')).
Proof.
  intros Hi.
  destruct ev as [|name email password role now|email password
    |user form now|user task amount message now_id now_created
    |task bid now_id now_created|payment now]; simpl; eauto 12.
  - destruct (list_find _ _); eauto 12.
  - destruct user as [u|]; [destruct (decide _)|]; eauto 12.
    exists t. split_and!; try done. by apply lookup_app_l_Some.
  - destruct user as [u|]; eauto 12.
  - destruct (find_task _ _) as [[j t0]|] eqn:Hfind; simpl; [|eauto 12].
    apply find_task_lookup in Hfind as [Hj _].
    destruct (decide (i = j)) as [->|Hne].
    + exists (set_acceptedBid (JSON_bid bid) t0).
      rewrite list_lookup_insert_eq by (by eapply lookup_lt_Some).
      assert (t0 = t) as -> by congruence. by split_and!.
    + exists t. by rewrite list_lookup_insert_ne.
  - destruct (find_payment _ _) as [[j p0]|]; eauto 12.
Qed.

(** X21. A task keeps what it was posted with: through every run of events
    it stays at its place in the array with its id, title, description,
    owner, due date and budget; only its accepted bid is ever written, and
    once a task has an accepted bid it always has one. *)
Theorem task_keeps_its_fields (evs : list Event) (w : World) (i : nat) (t : Task.t) :
  DB.tasks (db_of w) !! i = Some t →
  ∃ t', DB.tasks (db_of (run Number evs w)) !! i = Some t' ∧
        Task.id t' = Task.id t ∧
        Task.title t' = Task.title t ∧
        Task.description t' = Task.description t ∧
        Task.studentId t' = Task.studentId t ∧
        Task.studentName t' = Task.studentName t ∧
        Task.dueDate t' = Task.dueDate t ∧
        Task.budget t' = Task.budget t ∧
        (is_Some (Task.acceptedBid t) → is_Some (Task.acceptedBid t')).
Proof.
  rewrite run_db. generalize (db_of w) as db. revert t.
  induction evs as [|ev evs IH]; intros t db Hi; cbn [foldl].
  - exists t. done.
  - destruct (next_db_task db ev i t Hi)
      as (t1 & Ht1 & Ea & Eb & Ec & Ed & Ee & Ef & Eg & Hacc).
    destruct (IH t1 _ Ht1) as (t2 & Ht2 & Fa & Fb & Fc & Fd & Fe & Ff & Fg & Hacc2).
    exists t2. split_and!; [done|congruence..|auto].
Qed.

(** X22. An amount that is not a number is stored as [null]: when
    [Number (amount)] is [NaN] or an infinity, [submitBid] still returns
    normally and the bid read back from the storage has the amount [null]. *)
Theorem submitBid_stores_null_for_non_number (u : CurrentUser.t) (task : Task.t)
    (amount message : string) (now_id now_created : Z) (w : World) :
  (Number amount = S754_nan ∨ ∃ s, Number amount = S754_infinity s) →
  (submitBid Number (Some u) task amount message now_id now_created w).1 = Normal () ∧
  DB.bids (db_of (submitBid Number (Some u) task amount message now_id now_created w).2) =
    DB.bids (db_of w) ++
      [Bid.mk ("b_" +:+ pretty now_id) (Task.id task) (CurrentUser.id u)
         (CurrentUser.name u) JNull message now_created].
Proof.
  intros Hnan. split; [by rewrite submitBid_eq|].
  rewrite submitBid_db. simpl. by destruct Hnan as [->|[s ->]].
Qed.

End Properties.

(** * The scenario, run *)

Lemma world_open_db :
  db_of world_open = DB.mk [] [essay] [bidA; bidB] [].
Proof. vm_compute. reflexivity. Qed.

Lemma world_accepted_db :
  db_of world_accepted =
  DB.mk [] [set_acceptedBid bidA essay] [bidA; bidB] [paymentA].
Proof. vm_compute. reflexivity. Qed.

(** C3 at the first acceptance of the scenario. *)
Lemma accept_sets_bid_and_creates_payment_witness :
  bidA ∈ DB.bids (db_of world_open) ∧
  (accept essay bidA 4000 4000 world_open).1 = Normal () ∧
  find_task "t_1000" (db_of (accept essay bidA 4000 4000 world_open).2) =
    Some (0, set_acceptedBid bidA essay) ∧
  DB.payments (db_of (accept essay bidA 4000 4000 world_open).2) = [paymentA].
Proof.
  assert (bidA ∈ DB.bids (db_of world_open)) as Hbid
    by (rewrite world_open_db; simpl; left).
  split; [exact Hbid|].
  destruct (accept_sets_bid_and_creates_payment world_open world_open essay bidA
              4000 4000 Hbid) as [(Hr & i & t & Hfind & _ & Hfind' & _ & Hpay & _)|(_ & Hnone & _)].
  - rewrite world_open_db in Hfind. vm_compute in Hfind.
    injection Hfind as <- <-.
    split; [exact Hr|]. split; [exact Hfind'|].
    rewrite Hpay, world_open_db. reflexivity.
  - rewrite world_open_db in Hnone. vm_compute in Hnone. discriminate Hnone.
Defined.

(** C1 does not hold: after the two acceptances of the scenario the task
    ["t_1000"] of the store has two payments. *)
Lemma two_acceptances_two_payments :
  "t_1000" ∈ task_ids (db_of world_accepted_twice) ∧
  length (payments_for "t_1000" (db_of world_accepted_twice)) = 2 ∧
  ¬ (∀ t, t ∈ DB.tasks (db_of world_accepted_twice) →
          (length (payments_for (Task.id t) (db_of world_accepted_twice)) ≤ 1)%nat).
Proof.
  split_and!.
  - vm_compute. left.
  - vm_compute. reflexivity.
  - intros H. specialize (H (set_acceptedBid bidB essay)).
    assert (set_acceptedBid bidB essay ∈ DB.tasks (db_of world_accepted_twice)) as Hin
      by (vm_compute; left).
    apply H in Hin. vm_compute in Hin. lia.
Qed.

(** C1, amended, on the scenario: two invocations among other events, two
    more payments. *)
Lemma accept_pushes_one_payment_per_call_witness :
  is_Some (find_task "t_1000" (db_of world_open)) ∧
  length (payments_for "t_1000"
    (db_of (run Number_of_integer_literal
       [Accept essay bidA 4000 4000; Pay paymentA 6000; Accept essay bidB 5000 5000]
       world_open))) =
  length (payments_for "t_1000" (db_of world_open)) +
  accepts_on "t_1000"
    [Accept essay bidA 4000 4000; Pay paymentA 6000; Accept essay bidB 5000 5000].
Proof.
  assert (is_Some (find_task "t_1000" (db_of world_open))) as Hfind
    by (rewrite world_open_db; vm_compute; eauto).
  split; [exact Hfind|].
  exact (accept_pushes_one_payment_per_call Number_of_integer_literal world_open
           "t_1000"
           [Accept essay bidA 4000 4000; Pay paymentA 6000; Accept essay bidB 5000 5000]
           Hfind).
Defined.

(** C2 does not hold: the task of the scenario has Tom's bid as its accepted
    bid, and [accept] with Tia's bid returns normally, leaves Tia's bid on
    the task and a second payment in the store. *)
Lemma accept_again_is_not_rejected :
  find_task "t_1000" (db_of world_accepted) = Some (0, set_acceptedBid bidA essay) ∧
  (accept essay bidB 5000 5000 world_accepted).1 = Normal () ∧
  find_task "t_1000" (db_of (accept essay bidB 5000 5000 world_accepted).2) =
    Some (0, set_acceptedBid bidB essay) ∧
  length (DB.payments (db_of world_accepted)) = 1 ∧
  length (DB.payments (db_of (accept essay bidB 5000 5000 world_accepted).2)) = 2.
Proof. vm_compute. done. Qed.

(** C2, amended, on the scenario. *)
Lemma accept_again_overwrites_witness :
  find_task (Task.id essay) (db_of world_accepted) = Some (0, set_acceptedBid bidA essay) ∧
  Task.acceptedBid (set_acceptedBid bidA essay) = Some bidA ∧
  (accept essay bidB 5000 5000 world_accepted).1 = Normal () ∧
  length (payments_for (Task.id essay)
            (db_of (accept essay bidB 5000 5000 world_accepted).2)) =
    S (length (payments_for (Task.id essay) (db_of world_accepted))).
Proof.
  assert (find_task (Task.id essay) (db_of world_accepted) =
          Some (0, set_acceptedBid bidA essay)) as Hfind
    by (rewrite world_accepted_db; vm_compute; reflexivity).
  assert (Task.acceptedBid (set_acceptedBid bidA essay) = Some bidA) as Hacc
    by reflexivity.
  split; [exact Hfind|]. split; [exact Hacc|].
  destruct (accept_again_overwrites world_accepted essay bidB bidA 5000 5000 0
              (set_acceptedBid bidA essay) Hfind Hacc) as (_ & Hr & _ & _ & _ & Hlen).
  split; [exact Hr|exact Hlen].
Defined.



(** C5 does not hold: a bid of [-400] returns normally and is stored. *)
Lemma negative_bid_is_stored :
  js_negative (Number_of_integer_literal "-400") = true ∧
  (submitBid Number_of_integer_literal (Some tom) essay "-400" "" 2000 2000
     initial_world).1 = Normal () ∧
  DB.bids (db_of (submitBid Number_of_integer_literal (Some tom) essay "-400" ""
                    2000 2000 initial_world).2) =
    [Bid.mk "b_2000" "t_1000" "u_2" "Tom" (JNumber (js_of_Z (-400))) "" 2000].
Proof. vm_compute. done. Qed.

(** C5, amended, at that bid. *)
Lemma submitBid_accepts_negative_amount_witness :
  js_negative (Number_of_integer_literal "-400") = true ∧
  (submitBid Number_of_integer_literal (Some tom) essay "-400" "" 2000 2000
     initial_world).1 = Normal ().
Proof.
  assert (js_negative (Number_of_integer_literal "-400") = true) as Hneg
    by (vm_compute; reflexivity).
  split; [exact Hneg|].
  exact (proj1 (submitBid_accepts_negative_amount Number_of_integer_literal tom essay
                  "-400" "" 2000 2000 initial_world Hneg)).
Defined.

Lemma world_paid_db :
  db_of world_paid =
  DB.mk [] [set_acceptedBid bidA essay] [bidA; bidB] [set_paid 6000 paymentA].
Proof. vm_compute. reflexivity. Qed.

(** C6 on the scenario: the paid payment stays paid through a second
    acceptance and a second [pay]. *)
Lemma paid_stays_paid_witness :
  DB.payments (db_of world_paid) !! 0 = Some (set_paid 6000 paymentA) ∧
  Payment.studentPaid (set_paid 6000 paymentA) = true ∧
  ∃ p', DB.payments
          (db_of (run Number_of_integer_literal
                    [Accept essay bidB 7000 7000; Pay paymentA 8000] world_paid)) !! 0
        = Some p' ∧
        Payment.id p' = "p_4000" ∧
        Payment.studentPaid p' = true.
Proof.
  assert (DB.payments (db_of world_paid) !! 0 = Some (set_paid 6000 paymentA)) as Hi
    by (rewrite world_paid_db; reflexivity).
  assert (Payment.studentPaid (set_paid 6000 paymentA) = true) as Hpaid by reflexivity.
  split; [exact Hi|]. split; [exact Hpaid|].
  exact (proj1 (paid_stays_paid Number_of_integer_literal)
           [Accept essay bidB 7000 7000; Pay paymentA 8000] world_paid 0
           (set_paid 6000 paymentA) Hi Hpaid).
Defined.

(** C7 does not hold: the payment of the scenario is paid, with [paidAt] at
    6000; [pay] on it again returns normally and [paidAt] is 7000. *)
Lemma pay_again_is_not_rejected :
  find_payment "p_4000" (db_of world_paid) = Some (0, set_paid 6000 paymentA) ∧
  Payment.studentPaid (set_paid 6000 paymentA) = true ∧
  (pay paymentA 7000 [] world_paid).1 = Normal [] ∧
  DB.payments (db_of (pay paymentA 7000 [] world_paid).2) = [set_paid 7000 paymentA] ∧
  Payment.paidAt (set_paid 6000 paymentA) ≠ Payment.paidAt (set_paid 7000 paymentA).
Proof. vm_compute. done. Qed.

(** C7, amended, on the scenario. *)
Lemma pay_again_overwrites_paidAt_witness :
  find_payment (Payment.id paymentA) (db_of world_paid) =
    Some (0, set_paid 6000 paymentA) ∧
  Payment.studentPaid (set_paid 6000 paymentA) = true ∧
  DB.payments (db_of (pay paymentA 7000 [] world_paid).2) =
    <[0 := Payment.mk "p_4000" "t_1000" (JNumber (js_of_Z 400)) true 4000 (Some 7000%Z)]>
      (DB.payments (db_of world_paid)).
Proof.
  assert (find_payment (Payment.id paymentA) (db_of world_paid) =
          Some (0, set_paid 6000 paymentA)) as Hfind
    by (rewrite world_paid_db; vm_compute; reflexivity).
  assert (Payment.studentPaid (set_paid 6000 paymentA) = true) as Hpaid by reflexivity.
  split; [exact Hfind|]. split; [exact Hpaid|].
  exact (proj1 (proj2 (proj2 (pay_again_overwrites_paidAt paymentA 7000 [] world_paid 0
                                (set_paid 6000 paymentA) Hfind Hpaid)))).
Defined.

(** C8 on the scenario: Sue sees the payment on her task, and so does Tom. *)
Lemma PaymentsPage_lists_own_or_all_witness :
  CurrentUser.role sue = "student" ∧
  CurrentUser.role tom = "tutor" ∧
  (PaymentsPage_payments (Some sue)
     (run Number_of_integer_literal (bidding ++ [Accept essay bidA 4000 4000])
        initial_world)).1 =
    Normal (filter (λ p, task_owner
                (db_of (run Number_of_integer_literal
                          (bidding ++ [Accept essay bidA 4000 4000]) initial_world)) p
              = Some (CurrentUser.id sue))
              (DB.payments
                 (db_of (run Number_of_integer_literal
                           (bidding ++ [Accept essay bidA 4000 4000]) initial_world)))) ∧
  (PaymentsPage_payments (Some tom)
     (run Number_of_integer_literal (bidding ++ [Accept essay bidA 4000 4000])
        initial_world)).1 =
    Normal (DB.payments
              (db_of (run Number_of_integer_literal
                        (bidding ++ [Accept essay bidA 4000 4000]) initial_world))).
Proof.
  assert (CurrentUser.role sue = "student") as Hsue by reflexivity.
  assert (CurrentUser.role tom = "tutor") as Htom by reflexivity.
  split; [exact Hsue|]. split; [exact Htom|]. split.
  - exact (proj1 (PaymentsPage_lists_own_or_all Number_of_integer_literal
                    (bidding ++ [Accept essay bidA 4000 4000]) sue) Hsue).
  - exact (proj2 (PaymentsPage_lists_own_or_all Number_of_integer_literal
                    (bidding ++ [Accept essay bidA 4000 4000]) tom) Htom).
Defined.

(** C9 does not hold: two tasks posted at the clock reading 1000 share the
    id ["t_1000"], and two bids made at 2000 the id ["b_2000"]. *)
Lemma same_clock_reading_same_id :
  task_ids (db_of (run Number_of_integer_literal same_tick initial_world)) =
    ["t_1000"; "t_1000"] ∧
  bid_ids (db_of (run Number_of_integer_literal same_tick initial_world)) =
    ["b_2000"; "b_2000"] ∧
  ¬ NoDup (task_ids (db_of (run Number_of_integer_literal same_tick initial_world))) ∧
  ¬ NoDup (bid_ids (db_of (run Number_of_integer_literal same_tick initial_world))).
Proof.
  assert (task_ids (db_of (run Number_of_integer_literal same_tick initial_world)) =
          ["t_1000"; "t_1000"]) as Ht by (vm_compute; reflexivity).
  assert (bid_ids (db_of (run Number_of_integer_literal same_tick initial_world)) =
          ["b_2000"; "b_2000"]) as Hb by (vm_compute; reflexivity).
  rewrite Ht, Hb. split_and!; try done.
  - intros [Hnin _]%NoDup_cons. apply Hnin. left.
  - intros [Hnin _]%NoDup_cons. apply Hnin. left.
Qed.

(** C10 on a storage with an orphan payment: neither Sue nor Tom sees it. *)
Lemma dangling_payment_is_not_listed_witness :
  find_task (Payment.taskId orphan) (db_of world_dangling) = None ∧
  ∃ l, (PaymentsPage_payments (Some tom) world_dangling).1 = Normal l ∧ orphan ∉ l.
Proof.
  assert (find_task (Payment.taskId orphan) (db_of world_dangling) = None) as Hnone
    by (vm_compute; reflexivity).
  split; [exact Hnone|].
  exact (dangling_payment_is_not_listed tom world_dangling orphan Hnone).
Defined.

(** * Further runs *)

Lemma world_registered_db :
  db_of world_registered = DB.mk [sue_user] [] [] [].
Proof. vm_compute. reflexivity. Qed.

(** X2 on the registered world and on the empty one. *)
Lemma register_checks_email_witness :
  "sue@example.org" ∈ user_emails (db_of world_registered) ∧
  (register "Sue Two" "sue@example.org" "other" "tutor" 2 world_registered).1 =
    Throw (Error "Email already in use") ∧
  ("sue@example.org" ∉ user_emails (db_of initial_world)) ∧
  (register "Sue" "sue@example.org" "secret" "student" 1 initial_world).1 =
    Normal sue_user.
Proof.
  assert ("sue@example.org" ∈ user_emails (db_of world_registered)) as Hin
    by (rewrite world_registered_db; vm_compute; left).
  assert ("sue@example.org" ∉ user_emails (db_of initial_world)) as Hnin
    by (vm_compute; apply not_elem_of_nil).
  split; [exact Hin|]. split; [|split; [exact Hnin|]].
  - exact (proj1 (proj1 (register_checks_email "Sue Two" "sue@example.org" "other"
                           "tutor" 2 world_registered) Hin)).
  - exact (proj1 (proj2 (register_checks_email "Sue" "sue@example.org" "secret"
                           "student" 1 initial_world) Hnin)).
Defined.

(** X4: Sue registers, the bidding goes on, Sue logs in. *)
Lemma login_after_register_witness :
  (register "Sue" "sue@example.org" "secret" "student" 1 initial_world).1 =
    Normal sue_user ∧
  (login "sue@example.org" "secret"
     (run Number_of_integer_literal bidding
        (register "Sue" "sue@example.org" "secret" "student" 1 initial_world).2)).1 =
    Normal sue_user.
Proof.
  assert ((register "Sue" "sue@example.org" "secret" "student" 1 initial_world).1 =
          Normal sue_user) as Hreg by (vm_compute; reflexivity).
  split; [exact Hreg|].
  exact (login_after_register Number_of_integer_literal "Sue" "sue@example.org"
           "secret" "student" 1 initial_world bidding sue_user Hreg).
Defined.

(** X5: a second registration with Sue's email, and one with another. *)
Lemma emails_stay_unique_witness :
  NoDup (user_emails (db_of world_registered)) ∧
  NoDup (user_emails
    (db_of (run Number_of_integer_literal
       [Register "Sue Two" "sue@example.org" "other" "tutor" 2;
        Register "Tom" "tom@example.org" "pw" "tutor" 3] world_registered))).
Proof.
  assert (NoDup (user_emails (db_of world_registered))) as Hnd
    by (rewrite world_registered_db; apply NoDup_singleton).
  split; [exact Hnd|].
  exact (emails_stay_unique Number_of_integer_literal
           [Register "Sue Two" "sue@example.org" "other" "tutor" 2;
            Register "Tom" "tom@example.org" "pw" "tutor" 3] world_registered Hnd).
Defined.

(** X7: Sue may post, Tom may not. *)
Lemma submit_posts_for_students_only_witness :
  CurrentUser.role sue = "student" ∧
  (submit (Some sue) essay_form 1000 initial_world).1 = Normal () ∧
  (∀ u, Some tom = Some u → CurrentUser.role u ≠ "student") ∧
  submit (Some tom) essay_form 1000 initial_world =
    (Normal (),
     mkWorld (localStorage initial_world)
       (alerts initial_world ++ ["Please login as a student to post tasks"])).
Proof.
  assert (CurrentUser.role sue = "student") as Hsue by reflexivity.
  assert (∀ u, Some tom = Some u → CurrentUser.role u ≠ "student") as Htom
    by (intros u [= <-]; discriminate).
  split; [exact Hsue|]. split; [|split; [exact Htom|]].
  - exact (proj1 (proj1 submit_posts_for_students_only sue essay_form 1000%Z
                    initial_world Hsue)).
  - exact (proj2 submit_posts_for_students_only (Some tom) essay_form 1000%Z
             initial_world Htom).
Defined.


(** X9: Sue's tasks, and the effect without a user. *)
Lemma MyTasks_lists_own_tasks_witness :
  CurrentUser.role sue = "student" ∧
  DB.tasks (db_of world_open) ≠ [] ∧
  (MyTasks_effect None world_open).1 = Throw TypeError ∧
  ∃ l, (MyTasks_tasks (Some sue) world_open).1 = Normal l ∧
       (MyTasks_effect (Some sue) world_open).1 = Normal l.
Proof.
  assert (CurrentUser.role sue = "student") as Hsue by reflexivity.
  assert (DB.tasks (db_of world_open) ≠ []) as Hne
    by (rewrite world_open_db; discriminate).
  split; [exact Hsue|]. split; [exact Hne|]. split.
  - exact (proj2 MyTasks_lists_own_tasks world_open Hne).
  - destruct (proj1 MyTasks_lists_own_tasks sue sue essay_form 6000%Z world_open Hsue)
      as (l & H1 & H2 & _).
    exists l. split; [exact H1|exact H2].
Defined.

(** X11: Tom bids on the essay before it is posted. *)
Lemma submitBid_ignores_missing_task_witness :
  find_task (Task.id essay) (db_of initial_world) = None ∧
  (submitBid Number_of_integer_literal (Some tom) essay "400" "can do" 2000 2000
     initial_world).1 = Normal ().
Proof.
  assert (find_task (Task.id essay) (db_of initial_world) = None) as Hnone
    by reflexivity.
  split; [exact Hnone|].
  exact (proj1 (submitBid_ignores_missing_task Number_of_integer_literal tom essay
                  "400" "can do" 2000 2000 initial_world Hnone)).
Defined.

(** X13: nothing selected. *)
Lemma AcceptBidUI_needs_selection_witness :
  (∀ x, x ∈ [bidA; bidB] → Some (Bid.id x) ≠ None) ∧
  AcceptBidUI_onClick essay [bidA; bidB] None 4000 4000 world_open =
    (Normal (),
     mkWorld (localStorage world_open) (alerts world_open ++ ["Select a bid first"])).
Proof.
  assert (∀ x, x ∈ [bidA; bidB] → Some (Bid.id x) ≠ None) as Hsel
    by (intros x _; discriminate).
  split; [exact Hsel|].
  exact (AcceptBidUI_needs_selection essay [bidA; bidB] None 4000 4000 world_open Hsel).
Defined.

(** X14: Sue selects Tom's bid on the card of the essay. *)
Lemma AcceptBidUI_accepts_bid_of_task_witness :
  (bids_of_task essay world_open).1 = Normal [bidA; bidB] ∧
  ((DB.tasks (db_of (AcceptBidUI_onClick essay [bidA; bidB] (Some "b_2000") 4000 4000
                       world_open).2) = DB.tasks (db_of world_open) ∧
    DB.payments (db_of (AcceptBidUI_onClick essay [bidA; bidB] (Some "b_2000") 4000 4000
                          world_open).2) = DB.payments (db_of world_open))
   ∨ (∃ bid,
        bid ∈ DB.bids (db_of world_open) ∧
        Bid.taskId bid = Task.id essay ∧
        Some (Bid.id bid) = Some "b_2000" ∧
        accepted_bid_of (Task.id essay)
          (db_of (AcceptBidUI_onClick essay [bidA; bidB] (Some "b_2000") 4000 4000
                    world_open).2) = Some bid ∧
        DB.payments (db_of (AcceptBidUI_onClick essay [bidA; bidB] (Some "b_2000")
                              4000 4000 world_open).2) =
          DB.payments (db_of world_open) ++
            [Payment.mk ("p_" +:+ pretty 4000%Z) (Task.id essay) (Bid.amount bid)
               false 4000 None])).
Proof.
  assert ((bids_of_task essay world_open).1 = Normal [bidA; bidB]) as Hbids
    by (vm_compute; reflexivity).
  split; [exact Hbids|].
  exact (AcceptBidUI_accepts_bid_of_task world_open world_open essay [bidA; bidB]
           (Some "b_2000") 4000 4000 Hbids).
Defined.

(** X15: paying before anything was accepted. *)
Lemma pay_unknown_payment_throws_witness :
  (Payment.id paymentA ∉ Payment.id <$> DB.payments (db_of world_open)) ∧
  (pay paymentA 6000 [] world_open).1 = Throw TypeError ∧
  db_of (pay paymentA 6000 [] world_open).2 = db_of world_open.
Proof.
  assert (Payment.id paymentA ∉ Payment.id <$> DB.payments (db_of world_open)) as Hnin
    by (rewrite world_open_db; apply not_elem_of_nil).
  split; [exact Hnin|].
  destruct (pay_unknown_payment_throws paymentA 6000 [] world_open Hnin) as (H1 & H2 & _).
  split; [exact H1|exact H2].
Defined.

(** X16: Sue pays from a page that lists the payment. *)
Lemma pay_updates_view_witness :
  find_payment (Payment.id paymentA) (db_of world_accepted) = Some (0, paymentA) ∧
  ∃ next, (pay paymentA 6000 [paymentA] world_accepted).1 = Normal next ∧
          length next = length [paymentA].
Proof.
  assert (find_payment (Payment.id paymentA) (db_of world_accepted) =
          Some (0, paymentA)) as Hfind
    by (rewrite world_accepted_db; vm_compute; reflexivity).
  split; [exact Hfind|].
  destruct (pay_updates_view paymentA 6000 [paymentA] world_accepted 0 paymentA Hfind)
    as (next & H1 & H2 & _).
  exists next. split; [exact H1|exact H2].
Defined.

(** X17: the page of Sue after she has paid. *)
Lemma pay_view_matches_store_witness :
  NoDup (Payment.id <$> DB.payments (db_of world_accepted)) ∧
  (PaymentsPage_payments (Some sue) world_accepted).1 = Normal [paymentA] ∧
  Payment.id paymentA ∈ Payment.id <$> DB.payments (db_of world_accepted) ∧
  ∃ next,
    (pay paymentA 6000 [paymentA] world_accepted).1 = Normal next ∧
    (PaymentsPage_payments (Some sue)
       (pay paymentA 6000 [paymentA] world_accepted).2).1 = Normal next.
Proof.
  assert (NoDup (Payment.id <$> DB.payments (db_of world_accepted))) as Hnd
    by (rewrite world_accepted_db; apply NoDup_singleton).
  assert ((PaymentsPage_payments (Some sue) world_accepted).1 = Normal [paymentA])
    as Hprev by (vm_compute; reflexivity).
  assert (Payment.id paymentA ∈ Payment.id <$> DB.payments (db_of world_accepted))
    as Hin by (rewrite world_accepted_db; left).
  split; [exact Hnd|]. split; [exact Hprev|]. split; [exact Hin|].
  exact (pay_view_matches_store sue paymentA 6000 world_accepted [paymentA]
           Hnd Hprev Hin).
Defined.

(** X19: the payment of the first acceptance is on a task with an accepted
    bid. *)
Lemma accepted_iff_payment_witness :
  paymentA ∈ DB.payments
    (db_of (run Number_of_integer_literal (bidding ++ [Accept essay bidA 4000 4000])
              initial_world)) ∧
  ∃ i t b,
    find_task (Payment.taskId paymentA)
      (db_of (run Number_of_integer_literal (bidding ++ [Accept essay bidA 4000 4000])
                initial_world)) = Some (i, t) ∧
    Task.acceptedBid t = Some b.
Proof.
  assert (paymentA ∈ DB.payments
    (db_of (run Number_of_integer_literal (bidding ++ [Accept essay bidA 4000 4000])
              initial_world))) as Hin by (vm_compute; left).
  split; [exact Hin|].
  exact (proj2 (accepted_iff_payment Number_of_integer_literal
                  (bidding ++ [Accept essay bidA 4000 4000])) paymentA Hin).
Defined.

(** X20: the payment through a payment and a second acceptance. *)
Lemma payment_is_frozen_witness :
  DB.payments (db_of world_accepted) !! 0 = Some paymentA ∧
  ∃ p', DB.payments
          (db_of (run Number_of_integer_literal
                    [Pay paymentA 6000; Accept essay bidB 7000 7000] world_accepted)) !! 0
        = Some p' ∧
        Payment.id p' = Payment.id paymentA ∧
        Payment.taskId p' = Payment.taskId paymentA ∧
        Payment.amount p' = Payment.amount paymentA ∧
        Payment.createdAt p' = Payment.createdAt paymentA.
Proof.
  assert (DB.payments (db_of world_accepted) !! 0 = Some paymentA) as Hi
    by (rewrite world_accepted_db; reflexivity).
  split; [exact Hi|].
  exact (payment_is_frozen Number_of_integer_literal
           [Pay paymentA 6000; Accept essay bidB 7000 7000] world_accepted 0 paymentA Hi).
Defined.

(** X21: the essay through two acceptances. *)
Lemma task_keeps_its_fields_witness :
  DB.tasks (db_of world_open) !! 0 = Some essay ∧
  ∃ t', DB.tasks
          (db_of (run Number_of_integer_literal
                    [Accept essay bidA 4000 4000; Accept essay bidB 5000 5000]
                    world_open)) !! 0 = Some t' ∧
        Task.id t' = Task.id essay ∧
        Task.studentId t' = Task.studentId essay.
Proof.
  assert (DB.tasks (db_of world_open) !! 0 = Some essay) as Hi
    by (rewrite world_open_db; reflexivity).
  split; [exact Hi|].
  destruct (task_keeps_its_fields Number_of_integer_literal
              [Accept essay bidA 4000 4000; Accept essay bidB 5000 5000]
              world_open 0 essay Hi) as (t' & H1 & H2 & _ & _ & H3 & _).
  exists t'. split; [exact H1|]. split; [exact H2|exact H3].
Defined.

(** X22: a bid of "abc". *)
Lemma submitBid_stores_null_for_non_number_witness :
  (Number_of_integer_literal "abc" = S754_nan ∨
   ∃ s, Number_of_integer_literal "abc" = S754_infinity s) ∧
  DB.bids (db_of (submitBid Number_of_integer_literal (Some tom) essay "abc" ""
                    2000 2000 initial_world).2) =
    DB.bids (db_of initial_world) ++
      [Bid.mk ("b_" +:+ pretty 2000%Z) (Task.id essay) (CurrentUser.id tom)
         (CurrentUser.name tom) JNull "" 2000].
Proof.
  assert (Number_of_integer_literal "abc" = S754_nan ∨
          ∃ s, Number_of_integer_literal "abc" = S754_infinity s) as Hnan
    by (left; vm_compute; reflexivity).
  split; [exact Hnan|].
  exact (proj2 (submitBid_stores_null_for_non_number Number_of_integer_literal tom
                  essay "abc" "" 2000 2000 initial_world Hnan)).
Defined.
